(** * JWT issuance and validation of the chat_application microservices

    Shallow embedding of the token subsystem of the repository:
    - [auth_service/utils/jwt_utils.py]      : [JWTHelper] (sign / validate)
    - [auth_service/utils/jwt_issuer.py]     : [JWTIssuer]
    - [auth_service/fast_api_extensions/auth_http_request.py] and
      [chat_be/utils/auth_http_request.py]   : [AuthHTTPRequest]
    - [users_manager/utils/jwt_validator.py] : [AuthServiceJWTValidator]

    Python values are modelled by [pyval], dictionaries by association lists
    with Python's [dict] update semantics, exceptions by [py_exc] and a
    result type.  Times are UTC instants in microseconds since the epoch. *)

From Stdlib Require Import String Ascii List ZArith Bool Lia.
Import ListNotations.
Open Scope string_scope.
Open Scope Z_scope.

(** ** Python values, dictionaries and exceptions *)

Inductive pyval : Type :=
| PStr (s : string)
| PInt (z : Z)
| PBool (b : bool)
| PNone
| PDatetime (us : Z).  (** a [datetime], microseconds since the epoch *)

Definition dict := list (string * pyval).

(** [d.get(k)] *)
Fixpoint dict_get (d : dict) (k : string) : option pyval :=
  match d with
  | [] => None
  | (k', v) :: d' => if String.eqb k' k then Some v else dict_get d' k
  end.

(** [d[k] = v]: an existing key keeps its position, a new key is appended. *)
Fixpoint dict_set (d : dict) (k : string) (v : pyval) : dict :=
  match d with
  | [] => [(k, v)]
  | (k', v') :: d' =>
      if String.eqb k' k then (k', v) :: d' else (k', v') :: dict_set d' k v
  end.

(** Exceptions of the repository and of the PyJWT library. *)
Inductive py_exc : Type :=
| KeyError
| TypeError
| IndexError
| AttributeError
| ValueError
| OverflowError
| OSError
| NotImplementedError
(* PyJWT *)
| DecodeError
| InvalidSignatureError
| ExpiredSignatureError
| InvalidAlgorithmError
| ImmatureSignatureError
| InvalidIssuedAtError
| InvalidAudienceError
| InvalidSubjectError
| InvalidJTIError
| InvalidKeyError
(* repository *)
| JWTTokenInvalidException
| JWTInvalidAuthException
| FailedParsingJWTToken
| MicroserviceAuthenticationTokenInvalidException
| FailedGettingAuthServiceResponseException
| FailedInitializingAuthServiceJWTValidatorClassException
| AuthorizationHeaderInvalidHeaderFormat
| AuthorizationHeaderInvalidToken
| AuthorizationHeaderJWTTokenNotPermitted.

Definition py_exc_eqb (a b : py_exc) : bool :=
  match a, b with
  | KeyError, KeyError | TypeError, TypeError | IndexError, IndexError
  | AttributeError, AttributeError
  | ValueError, ValueError | OverflowError, OverflowError | OSError, OSError
  | NotImplementedError, NotImplementedError
  | DecodeError, DecodeError | InvalidSignatureError, InvalidSignatureError
  | ExpiredSignatureError, ExpiredSignatureError
  | InvalidAlgorithmError, InvalidAlgorithmError
  | ImmatureSignatureError, ImmatureSignatureError
  | InvalidIssuedAtError, InvalidIssuedAtError
  | InvalidAudienceError, InvalidAudienceError
  | InvalidSubjectError, InvalidSubjectError | InvalidJTIError, InvalidJTIError
  | InvalidKeyError, InvalidKeyError
  | JWTTokenInvalidException, JWTTokenInvalidException
  | JWTInvalidAuthException, JWTInvalidAuthException
  | FailedParsingJWTToken, FailedParsingJWTToken
  | MicroserviceAuthenticationTokenInvalidException,
    MicroserviceAuthenticationTokenInvalidException
  | FailedGettingAuthServiceResponseException,
    FailedGettingAuthServiceResponseException
  | FailedInitializingAuthServiceJWTValidatorClassException,
    FailedInitializingAuthServiceJWTValidatorClassException
  | AuthorizationHeaderInvalidHeaderFormat, AuthorizationHeaderInvalidHeaderFormat
  | AuthorizationHeaderInvalidToken, AuthorizationHeaderInvalidToken
  | AuthorizationHeaderJWTTokenNotPermitted, AuthorizationHeaderJWTTokenNotPermitted
    => true
  | _, _ => false
  end.

(** [except C] catches [e] when [e] is an instance of class [C].  In PyJWT,
    [InvalidSignatureError] is a subclass of [DecodeError]; every other
    class used here is a direct subclass of [Exception] or of PyJWT's
    [InvalidTokenError] or [PyJWTError], which no [except] clause of the
    code names. *)
Definition catches (handler e : py_exc) : bool :=
  match handler, e with
  | DecodeError, InvalidSignatureError => true
  | _, _ => py_exc_eqb handler e
  end.

Inductive result (A : Type) : Type :=
| Ok (a : A)
| Raise (e : py_exc).
Arguments Ok {A} a.
Arguments Raise {A} e.

Definition bind {A B} (r : result A) (f : A -> result B) : result B :=
  match r with Ok a => f a | Raise e => Raise e end.

Notation "x <- r ;; k" := (bind r (fun x => k))
  (at level 61, r at next level, right associativity).

(** [d[k]] *)
Definition subscript (d : dict) (k : string) : result pyval :=
  match dict_get d k with Some v => Ok v | None => Raise KeyError end.

(** [v == "s"] for a string literal [s]. *)
Definition py_eq_str (v : pyval) (s : string) : bool :=
  match v with PStr s' => String.eqb s' s | _ => false end.

(** [v] in a boolean context ([bool(v)]). *)
Definition py_truthy (v : pyval) : bool :=
  match v with
  | PStr s => negb (String.eqb s EmptyString)
  | PInt z => negb (Z.eqb z 0)
  | PBool b => b
  | PNone => false
  | PDatetime _ => true
  end.

(** [int(s)] for a string: surrounding whitespace ([str.isspace]), an
    optional sign, then decimal digits where a single [_] may separate two
    digits.  [None] is the [ValueError]. *)
Definition py_isspace (c : ascii) : bool :=
  let n := nat_of_ascii c in
  ((Nat.leb 9 n && Nat.leb n 13) || (Nat.leb 28 n && Nat.leb n 32))%bool.

Definition is_digit (c : ascii) : bool :=
  let n := nat_of_ascii c in (Nat.leb 48 n && Nat.leb n 57)%bool.

Fixpoint drop_spaces (l : list ascii) : list ascii :=
  match l with
  | c :: r => if py_isspace c then drop_spaces r else l
  | [] => []
  end.

(** Every [_] is followed by a digit. *)
Fixpoint underscores_ok (l : list ascii) : bool :=
  match l with
  | [] => true
  | c :: r =>
      if Ascii.eqb c "_" then
        match r with d :: _ => is_digit d && underscores_ok r | [] => false end
      else underscores_ok r
  end.

Definition parse_decimal (l : list ascii) : option Z :=
  match l with
  | c :: _ =>
      if is_digit c && forallb (fun c => is_digit c || Ascii.eqb c "_") l
         && underscores_ok l then
        Some (fold_left (fun acc c =>
                if is_digit c then acc * 10 + Z.of_nat (nat_of_ascii c - 48) else acc) l 0)
      else None
  | [] => None
  end.

Definition py_int_of_string (s : string) : option Z :=
  let l := rev (drop_spaces (rev (drop_spaces (list_ascii_of_string s)))) in
  match l with
  | "-"%char :: r => option_map Z.opp (parse_decimal r)
  | "+"%char :: r => parse_decimal r
  | _ => parse_decimal l
  end.

(** [int(v)] on a JSON value: [bool] is a subclass of [int]; [int(None)]
    raises [TypeError]. *)
Definition py_int (v : pyval) : result Z :=
  match v with
  | PInt z => Ok z
  | PBool b => Ok (if b then 1 else 0)
  | PStr s => match py_int_of_string s with Some z => Ok z | None => Raise ValueError end
  | PNone | PDatetime _ => Raise TypeError
  end.

Example py_int_of_string_cases :
  map py_int_of_string [" 1_000 "; "-7"; "1__0"; "_1"; "1_"; "+"; EmptyString; "12a"]
  = [Some 1000; Some (-7); None; None; None; None; None; None].
Proof. reflexivity. Qed.

(** ** Constants ([constants.py]) *)

Definition TOKEN_TYPE_DICT_KEY := "token_type".
Definition REGISTERED_USER_KEY_VALUE := "registered_user".
Definition MICROSERVICE_KEY_VALUE := "microservice".
Definition MICROSERVICE : dict := [(TOKEN_TYPE_DICT_KEY, PStr MICROSERVICE_KEY_VALUE)].
Definition REGISTERED_USER : dict :=
  [(TOKEN_TYPE_DICT_KEY, PStr REGISTERED_USER_KEY_VALUE)].

(** ** Authorization header parsing ([AuthHTTPRequest.parse_auth_bearer_header]) *)

(** Python's [s.split(" ")]: every single space separates two pieces. *)
Fixpoint py_split_space (s : string) : list string :=
  match s with
  | EmptyString => [""]
  | String c rest =>
      let parts := py_split_space rest in
      if Ascii.eqb c " "%char then "" :: parts
      else match parts with
           | p :: ps => String c p :: ps
           | [] => [String c ""]
           end
  end.

Definition parse_auth_bearer_header (authorization_bearer_header : string)
  : result string :=
  let header_values := py_split_space authorization_bearer_header in
  match nth_error header_values 0, nth_error header_values 1 with
  | Some auth_type, Some token =>
      if negb (Nat.eqb (List.length header_values) 2) then
        Raise AuthorizationHeaderInvalidHeaderFormat
      else if negb (String.eqb auth_type "Bearer") then
        Raise AuthorizationHeaderInvalidHeaderFormat
      else if Nat.ltb (String.length token) 1 then
        Raise AuthorizationHeaderInvalidHeaderFormat
      else Ok token
  | _, _ => Raise AuthorizationHeaderInvalidHeaderFormat  (* IndexError *)
  end.

Example parse_bearer_abc : parse_auth_bearer_header "Bearer abc" = Ok "abc".
Proof. reflexivity. Qed.
Example split_bearer_two_spaces : py_split_space "Bearer  " = ["Bearer"; ""; ""].
Proof. reflexivity. Qed.

(** ** The PyJWT library

    A decoded JWS token: the [alg] header, the claims and the signature.
    The compact serialisation (base64url of the JSON header and payload) is
    the library's: it is abstracted by [token_encode] and [token_decode],
    and the signature algorithm by [sign_bytes] (loading the private key and
    signing, either of which can raise) and [verify_sig] (with the public
    key).  The PyJWT modelled is a current 2.x release (2.10 or later) with
    [cryptography] installed. *)

Record jwt : Type := { jwt_alg : string; jwt_payload : dict; jwt_sig : Z }.

Definition US_PER_SECOND : Z := 1000000.

Section Model.

Variable token_encode : jwt -> string.
Variable token_decode : string -> option jwt.
Variable sign_bytes : string -> string -> dict -> result Z.
Variable verify_sig : string -> string -> dict -> Z -> bool.

(** [jwt.encode]: the time claims [exp], [iat], [nbf] given as [datetime]
    become integer seconds ([timegm(dt.utctimetuple())], which drops the
    microseconds); every other value must be JSON serialisable. *)
Definition is_time_claim (k : string) : bool :=
  String.eqb k "exp" || String.eqb k "iat" || String.eqb k "nbf".

Definition encode_time_claims (p : dict) : dict :=
  map (fun kv =>
         match kv with
         | (k, PDatetime us) =>
             if is_time_claim k then (k, PInt (us / US_PER_SECOND)) else kv
         | _ => kv
         end) p.

Definition json_serializable (v : pyval) : bool :=
  match v with PDatetime _ => false | _ => true end.

(** The algorithm names PyJWT registers by default
    ([get_default_algorithms] with [cryptography]). *)
Definition PYJWT_ALGORITHMS : list string :=
  ["none"; "HS256"; "HS384"; "HS512"; "RS256"; "RS384"; "RS512";
   "ES256"; "ES256K"; "ES384"; "ES521"; "ES512"; "PS256"; "PS384"; "PS512"; "EdDSA"].

Definition is_pyjwt_algorithm (alg : string) : bool :=
  existsb (String.eqb alg) PYJWT_ALGORITHMS.

(** [jwt.encode(payload=..., key=..., algorithm=...)]: a non-string [iss]
    raises [TypeError]; the time claims become integers; [json.dumps]
    raises [TypeError] on a value that is not JSON; an algorithm PyJWT
    does not know raises [NotImplementedError] ([get_algorithm_by_name]);
    then the key is loaded and the signing input signed ([sign_bytes]). *)
Definition jwt_encode (payload : dict) (key algorithm : string) : result string :=
  _ <- match dict_get payload "iss" with
       | None | Some (PStr _) => Ok tt
       | Some _ => Raise TypeError
       end ;;
  let p := encode_time_claims payload in
  if negb (forallb (fun kv => json_serializable (snd kv)) p) then Raise TypeError
  else if negb (is_pyjwt_algorithm algorithm) then Raise NotImplementedError
  else
    sig <- sign_bytes key algorithm p ;;
    Ok (token_encode {| jwt_alg := algorithm; jwt_payload := p; jwt_sig := sig |}).

(** The claims PyJWT checks when decoding with its default options and no
    [audience], [issuer] or [subject] argument, in its order: [iat], [nbf],
    [exp] (each read with [int()]), [iss] (not checked without [issuer]),
    [aud], [sub], [jti].  [now] is the decoding instant in microseconds
    ([datetime.now(tz=timezone.utc).timestamp()], [leeway] 0). *)
Definition validate_claims (p : dict) (now : Z) : result unit :=
  _ <- match dict_get p "iat" with
       | None => Ok tt
       | Some v =>
           match py_int v with
           | Raise e => if catches ValueError e then Raise InvalidIssuedAtError else Raise e
           | Ok iat => if now <? iat * US_PER_SECOND then Raise ImmatureSignatureError else Ok tt
           end
       end ;;
  _ <- match dict_get p "nbf" with
       | None => Ok tt
       | Some v =>
           match py_int v with
           | Raise e => if catches ValueError e then Raise DecodeError else Raise e
           | Ok nbf => if now <? nbf * US_PER_SECOND then Raise ImmatureSignatureError else Ok tt
           end
       end ;;
  _ <- match dict_get p "exp" with
       | None => Ok tt
       | Some v =>
           match py_int v with
           | Raise e => if catches ValueError e then Raise DecodeError else Raise e
           | Ok exp => if exp * US_PER_SECOND <=? now then Raise ExpiredSignatureError else Ok tt
           end
       end ;;
  _ <- match dict_get p "aud" with
       | Some v => if py_truthy v then Raise InvalidAudienceError else Ok tt
       | None => Ok tt
       end ;;
  _ <- match dict_get p "sub" with
       | None | Some (PStr _) => Ok tt
       | Some _ => Raise InvalidSubjectError
       end ;;
  match dict_get p "jti" with
  | None | Some (PStr _) => Ok tt
  | Some _ => Raise InvalidJTIError
  end.

(** [jwt.decode(jwt=token, key=key, algorithms=algorithms)]: an algorithm
    outside [algorithms], or one PyJWT does not know, raises
    [InvalidAlgorithmError]; then the signature, then the claims. *)
Definition jwt_decode (token key : string) (algorithms : list string) (now : Z)
  : result dict :=
  match token_decode token with
  | None => Raise DecodeError
  | Some j =>
      if negb (existsb (String.eqb (jwt_alg j)) algorithms) then
        Raise InvalidAlgorithmError
      else if negb (is_pyjwt_algorithm (jwt_alg j)) then
        Raise InvalidAlgorithmError
      else if negb (verify_sig key (jwt_alg j) (jwt_payload j) (jwt_sig j)) then
        Raise InvalidSignatureError
      else
        _ <- validate_claims (jwt_payload j) now ;;
        Ok (jwt_payload j)
  end.

(** The range of Python's [datetime] (years 1 to 9999), in microseconds
    since the epoch. *)
Definition DATETIME_MIN_US : Z := -62135596800 * US_PER_SECOND.
Definition DATETIME_MAX_US : Z := 253402300799 * US_PER_SECOND + 999999.

Definition in_datetime_range (t : Z) : bool :=
  (DATETIME_MIN_US <=? t) && (t <=? DATETIME_MAX_US).

(** [dt + timedelta(microseconds=delta)] for an aware [dt]: [OverflowError]
    when the sum leaves the [datetime] range.  ([timedelta] itself raises
    [OverflowError] beyond 999999999 days, which is far outside that range
    anyway.) *)
Definition datetime_add (dt delta : Z) : result Z :=
  let r := dt + delta in
  if in_datetime_range r then Ok r else Raise OverflowError.

(** ** [JWTHelper] ([auth_service/utils/jwt_utils.py]) *)

Record JWTHelper : Type := {
  _private_key : string;
  _public_key : string;
  _expiration_time_in_hours : Z;
  _key_algorithm : string }.

(** [payload["exp"] = datetime.now(tz=timezone.utc)
       + timedelta(hours=self._expiration_time_in_hours)]
    then [jwt.encode]. [now] is the signing instant. *)
Definition sign_token (h : JWTHelper) (payload : dict) (now : Z) : result string :=
  exp <- datetime_add now (_expiration_time_in_hours h * 3600 * US_PER_SECOND) ;;
  let payload' := dict_set payload "exp" (PDatetime exp) in
  jwt_encode payload' (_private_key h) (_key_algorithm h).

Definition validate_token (h : JWTHelper) (jwt_token : string) (now : Z)
  : result dict :=
  match jwt_decode jwt_token (_public_key h) [_key_algorithm h] now with
  | Ok decoded_payload => Ok decoded_payload
  | Raise e =>
      if catches DecodeError e then Raise JWTTokenInvalidException
      else if catches ExpiredSignatureError e then Raise JWTTokenInvalidException
      else Raise e
  end.

(** ** Token payload objects and their parsing (shared by [JWTIssuer] and
    [AuthServiceJWTValidator], whose parsing code is identical) *)

Inductive token_details : Type :=
| JWTTokenMicroService (token_type service_name : pyval)
| JWTTokenRegisteredUser (token_type user_id email is_active : pyval).

(** [try: ... except KeyError: raise FailedParsingJWTToken()] *)
Definition key_error_to_parsing {A} (r : result A) : result A :=
  match r with
  | Raise e => if catches KeyError e then Raise FailedParsingJWTToken else Raise e
  | Ok a => Ok a
  end.

Definition _parse_microservice_token (jwt_token_payload : dict)
  : result token_details :=
  key_error_to_parsing
    (token_type <- subscript jwt_token_payload "token_type" ;;
     service_name <- subscript jwt_token_payload "service_name" ;;
     Ok (JWTTokenMicroService token_type service_name)).

Definition _parse_registered_user_token (jwt_token_payload : dict)
  : result token_details :=
  key_error_to_parsing
    (token_type <- subscript jwt_token_payload "token_type" ;;
     user_id <- subscript jwt_token_payload "user_id" ;;
     email <- subscript jwt_token_payload "email" ;;
     is_active <- subscript jwt_token_payload "is_active" ;;
     Ok (JWTTokenRegisteredUser token_type user_id email is_active)).

(** The body of [read_jwt_token], given the class's token validation
    ([JWTHelper.validate_token] or [AuthServiceJWTValidator._validate_token]). *)
Definition read_jwt_token_with (validate : string -> result dict) (jwt_token : string)
  : result (string * token_details) :=
  let body :=
    token_payload <- validate jwt_token ;;
    tt1 <- subscript token_payload "token_type" ;;
    if py_eq_str tt1 MICROSERVICE_KEY_VALUE then
      token_details <- _parse_microservice_token token_payload ;;
      Ok (MICROSERVICE_KEY_VALUE, token_details)
    else
      tt2 <- subscript token_payload "token_type" ;;
      if py_eq_str tt2 REGISTERED_USER_KEY_VALUE then
        token_details <- _parse_registered_user_token token_payload ;;
        Ok (REGISTERED_USER_KEY_VALUE, token_details)
      else Raise FailedParsingJWTToken in
  match body with
  | Raise e =>
      if catches JWTTokenInvalidException e then Raise JWTInvalidAuthException
      else Raise e
  | Ok r => Ok r
  end.

(** ** [JWTIssuer] ([auth_service/utils/jwt_issuer.py]) *)

(** [MicroServicesNames.MICROSERVICES_TOKENS_DICT]: microservice name to
    shared secret, configured at start-up. *)
Variable MICROSERVICES_TOKENS_DICT : list (string * string).

Record JWTIssuer : Type := { _jwt_helper : JWTHelper }.

(** [MICROSERVICES_TOKENS_DICT[micro_service_name]], [None] for [KeyError]. *)
Definition lookup_secret (micro_service_name : string) : option string :=
  match find (fun kv => String.eqb (fst kv) micro_service_name) MICROSERVICES_TOKENS_DICT with
  | Some (_, secret) => Some secret
  | None => None
  end.

Definition _authenticate_service_token (micro_service_initial_token micro_service_name : string)
  : bool :=
  match lookup_secret micro_service_name with
  | Some secret => String.eqb secret micro_service_initial_token
  | None => false  (* except KeyError: return False *)
  end.

(** [HTTPRequestIssueServiceJWTModel] *)
Record HTTPRequestIssueServiceJWTModel : Type := {
  micro_service_name : string;
  micro_service_initial_token : string }.

Definition issue_micro_service_jwt (self : JWTIssuer)
    (service_auth_details : HTTPRequestIssueServiceJWTModel) (now : Z) : result string :=
  if negb (_authenticate_service_token
             (micro_service_initial_token service_auth_details)
             (micro_service_name service_auth_details)) then
    Raise MicroserviceAuthenticationTokenInvalidException
  else
    let service_token_payload :=
      ("service_name", PStr (micro_service_name service_auth_details)) :: MICROSERVICE in
    sign_token (_jwt_helper self) service_token_payload now.

Definition is_token_valid (self : JWTIssuer) (jwt_token : string) (now : Z) : result bool :=
  match validate_token (_jwt_helper self) jwt_token now with
  | Ok _ => Ok true
  | Raise e => if catches JWTTokenInvalidException e then Ok false else Raise e
  end.

Definition issuer_read_jwt_token (self : JWTIssuer) (jwt_token : string) (now : Z)
  : result (string * token_details) :=
  read_jwt_token_with (fun t => validate_token (_jwt_helper self) t now) jwt_token.

(** ** [AuthHTTPRequest.verify_micro_service_jwt_token]

    The auth service's version reads the token with [JWTIssuer.read_jwt_token],
    the chat backend's with [AuthServiceJWTValidator.read_jwt_token]; the
    rest of the method is the same in both, so it is given the reader. *)
Definition verify_micro_service_jwt_token
    (read_jwt_token : string -> result (string * token_details))
    (authorization_bearer_header : string) (micro_service_name : option string)
  : result (option token_details) :=
  jwt_token <- parse_auth_bearer_header authorization_bearer_header ;;
  r <- match read_jwt_token jwt_token with
       | Ok r => Ok r
       | Raise e =>
           if catches FailedParsingJWTToken e || catches JWTInvalidAuthException e
           then Raise AuthorizationHeaderInvalidToken else Raise e
       end ;;
  let (token_type, jwt_token_payload_object) := r in
  if negb (String.eqb token_type MICROSERVICE_KEY_VALUE) then
    Raise AuthorizationHeaderJWTTokenNotPermitted
  else
    match micro_service_name with
    | Some name =>
        match jwt_token_payload_object with
        | JWTTokenMicroService _ service_name =>
            if negb (py_eq_str service_name name) then
              Raise AuthorizationHeaderJWTTokenNotPermitted
            else Ok None  (* the method ends without a return statement *)
        | JWTTokenRegisteredUser _ _ _ _ => Raise AttributeError
        end
    | None => Ok (Some jwt_token_payload_object)
    end.

(** [AuthHTTPRequest.verify_registered_user_jwt_token], given the reader
    as for [verify_micro_service_jwt_token]; the body is the same in both
    files. *)
Definition verify_registered_user_jwt_token
    (read_jwt_token : string -> result (string * token_details))
    (authorization_bearer_header : string) : result token_details :=
  jwt_token <- parse_auth_bearer_header authorization_bearer_header ;;
  r <- match read_jwt_token jwt_token with
       | Ok r => Ok r
       | Raise e =>
           if catches FailedParsingJWTToken e || catches JWTInvalidAuthException e
           then Raise AuthorizationHeaderInvalidToken else Raise e
       end ;;
  let (token_type, jwt_token_payload_object) := r in
  if negb (String.eqb token_type REGISTERED_USER_KEY_VALUE) then
    Raise AuthorizationHeaderJWTTokenNotPermitted
  else Ok jwt_token_payload_object.

(** [HTTPRequestIssueUserJWTModel] *)
Record HTTPRequestIssueUserJWTModel : Type := {
  user_id : Z;
  email : string;
  is_active : bool }.

(** [JWTIssuer.issue_user_jwt]: the payload
    [{"user_id": ..., "email": ..., "is_active": ..., **JWTTypes.REGISTERED_USER}]
    is signed without any check of the details. *)
Definition issue_user_jwt (self : JWTIssuer) (user_details : HTTPRequestIssueUserJWTModel)
    (now : Z) : result string :=
  let user_token_payload :=
    ([("user_id", PInt (user_id user_details)); ("email", PStr (email user_details));
     ("is_active", PBool (is_active user_details))] ++ REGISTERED_USER)%list in
  sign_token (_jwt_helper self) user_token_payload now.

End Model.

(** ** FastAPI dependencies ([auth_service/fast_api_extensions/fast_api_dependencies.py])

    Python binds the keyword arguments of a call before running the body:
    a parameter that is neither passed nor has a default makes the call
    raise [TypeError].  [default] is the declared default of
    [micro_service_name] ([None] when the signature declares none): the
    AUTH SERVICE's [verify_micro_service_jwt_token] declares none, the chat
    backend's declares [None]. *)
Definition bind_micro_service_name (default given : option (option string))
  : result (option string) :=
  match given, default with
  | Some name, _ => Ok name
  | None, Some d => Ok d
  | None, None => Raise TypeError
  end.

Definition call_verify_micro_service_jwt_token (default : option (option string))
    (read_jwt_token : string -> result (string * token_details))
    (authorization_bearer_header : string) (micro_service_name : option (option string))
  : result (option token_details) :=
  name <- bind_micro_service_name default micro_service_name ;;
  verify_micro_service_jwt_token read_jwt_token authorization_bearer_header name.

(** The declared default of [micro_service_name] in the AUTH SERVICE's
    [AuthHTTPRequest] (none) and in the chat backend's ([None]). *)
Definition auth_service_micro_service_name_default : option (option string) := None.
Definition chat_be_micro_service_name_default : option (option string) := Some None.

(** [MicroServicesNames.CHAT_BE] *)
Definition CHAT_BE : string := "chat_be".

Definition HTTP_401_UNAUTHORIZED : Z := 401.

(** What a dependency gives FastAPI: a value for the route, an
    [HTTPException], or another exception (answered with status 500). *)
Inductive dependency_result (A : Type) : Type :=
| Resolved (a : A)
| HTTPException (status_code : Z) (detail : string)
| Uncaught (e : py_exc).
Arguments Resolved {A} a.
Arguments HTTPException {A} status_code detail.
Arguments Uncaught {A} e.

(** The three [except] clauses shared by the dependencies. *)
Definition handle_authorization_exceptions {A} (r : result A) : dependency_result A :=
  match r with
  | Ok a => Resolved a
  | Raise e =>
      if catches AuthorizationHeaderJWTTokenNotPermitted e then
        HTTPException HTTP_401_UNAUTHORIZED "Not permitted to use this API route"
      else if catches AuthorizationHeaderInvalidHeaderFormat e then
        HTTPException HTTP_401_UNAUTHORIZED "Authorization header content is invalid"
      else if catches AuthorizationHeaderInvalidToken e then
        HTTPException HTTP_401_UNAUTHORIZED "JWT given is invalid"
      else Uncaught e
  end.

(** [require_microservice_jwt_token]: calls the method without
    [micro_service_name]. *)
Definition require_microservice_jwt_token (default : option (option string))
    (read_jwt_token : string -> result (string * token_details)) (Authorization : string)
  : dependency_result (option token_details) :=
  handle_authorization_exceptions
    (call_verify_micro_service_jwt_token default read_jwt_token Authorization None).

Definition require_chat_be_microservice_jwt_token (default : option (option string))
    (read_jwt_token : string -> result (string * token_details)) (Authorization : string)
  : dependency_result (option token_details) :=
  handle_authorization_exceptions
    (call_verify_micro_service_jwt_token default read_jwt_token Authorization
       (Some (Some CHAT_BE))).

Definition require_registered_user_jwt_token
    (read_jwt_token : string -> result (string * token_details)) (Authorization : string)
  : dependency_result token_details :=
  handle_authorization_exceptions (verify_registered_user_jwt_token read_jwt_token Authorization).

(** ** [MicroservicesTokenMappingHelper]
    ([auth_service/utils/microservices_token_mapping_helper.py])

    [os.environ] is an association list; [read_token_from_env_vars] walks
    [microservice_tokens_env_vars_dict] in order and sets
    [mapping[code_name] = os.environ[env_var]]; a missing variable raises
    [KeyError] and leaves the entries set so far. *)
Definition env_lookup (environ : list (string * string)) (name : string) : option string :=
  match find (fun kv => String.eqb (fst kv) name) environ with
  | Some (_, v) => Some v
  | None => None
  end.

Fixpoint read_token_from_env_vars (environ : list (string * string))
    (microservice_tokens_env_vars_dict : list (string * string)) (mapping : dict)
  : result unit * dict :=
  match microservice_tokens_env_vars_dict with
  | [] => (Ok tt, mapping)
  | (microservice_code_name, shared_token_env_var) :: rest =>
      match env_lookup environ shared_token_env_var with
      | None => (Raise KeyError, mapping)
      | Some token =>
          read_token_from_env_vars environ rest
            (dict_set mapping microservice_code_name (PStr token))
      end
  end.

(** ** [AuthServiceJWTValidator] ([users_manager/utils/jwt_validator.py]) *)

Module Validator.

Section ValidatorModel.

Variable token_decode : string -> option jwt.
Variable verify_sig : string -> string -> dict -> Z -> bool.

(** The attributes of an instance (the AUTH SERVICE addresses apart). *)
Record AuthServiceJWTValidator : Type := {
  micro_service_initial_token : string;
  micro_service_name : string;
  _public_key : pyval;
  _key_algorithm : pyval;
  _microservice_jwt_token : pyval;
  _microservice_jwt_token_expire_datetime : pyval }.

(** [__init__]: the last four attributes are [None]. *)
Definition init (initial_token name : string) : AuthServiceJWTValidator :=
  {| micro_service_initial_token := initial_token; micro_service_name := name;
     _public_key := PNone; _key_algorithm := PNone;
     _microservice_jwt_token := PNone;
     _microservice_jwt_token_expire_datetime := PNone |}.

Definition set_public_key (v : AuthServiceJWTValidator) (x : pyval) :=
  {| micro_service_initial_token := micro_service_initial_token v;
     micro_service_name := micro_service_name v;
     _public_key := x; _key_algorithm := _key_algorithm v;
     _microservice_jwt_token := _microservice_jwt_token v;
     _microservice_jwt_token_expire_datetime := _microservice_jwt_token_expire_datetime v |}.

Definition set_key_algorithm (v : AuthServiceJWTValidator) (x : pyval) :=
  {| micro_service_initial_token := micro_service_initial_token v;
     micro_service_name := micro_service_name v;
     _public_key := _public_key v; _key_algorithm := x;
     _microservice_jwt_token := _microservice_jwt_token v;
     _microservice_jwt_token_expire_datetime := _microservice_jwt_token_expire_datetime v |}.

Definition set_microservice_jwt_token (v : AuthServiceJWTValidator) (x : pyval) :=
  {| micro_service_initial_token := micro_service_initial_token v;
     micro_service_name := micro_service_name v;
     _public_key := _public_key v; _key_algorithm := _key_algorithm v;
     _microservice_jwt_token := x;
     _microservice_jwt_token_expire_datetime := _microservice_jwt_token_expire_datetime v |}.

Definition set_expire_datetime (v : AuthServiceJWTValidator) (x : pyval) :=
  {| micro_service_initial_token := micro_service_initial_token v;
     micro_service_name := micro_service_name v;
     _public_key := _public_key v; _key_algorithm := _key_algorithm v;
     _microservice_jwt_token := _microservice_jwt_token v;
     _microservice_jwt_token_expire_datetime := x |}.

(** Python's [<] on the values it is applied to here: two [datetime]s (or
    two ints) compare, [None < datetime] raises [TypeError]. *)
Definition py_lt (a b : pyval) : result bool :=
  match a, b with
  | PDatetime x, PDatetime y => Ok (x <? y)
  | PInt x, PInt y => Ok (x <? y)
  | _, _ => Raise TypeError
  end.

(** [jwt.decode(jwt=jwt_token, key=self._public_key,
                algorithms=[self._key_algorithm])].  Before initialisation
    [algorithms] is [[None]], which allows no header algorithm.  A key that
    is not a string reaches the key loader of the (allowed, known)
    algorithm: for ["none"] [None] is accepted and the signature check
    fails, any other value raises [InvalidKeyError]; the RSA, EC and HMAC
    loaders raise [TypeError] (EdDSA's is given the same behaviour). *)
Definition decode_with_state (v : AuthServiceJWTValidator) (jwt_token : string) (now : Z)
  : result dict :=
  match _key_algorithm v with
  | PStr alg =>
      match _public_key v with
      | PStr key => jwt_decode token_decode verify_sig jwt_token key [alg] now
      | key =>
          match token_decode jwt_token with
          | None => Raise DecodeError
          | Some j =>
              if negb (String.eqb (jwt_alg j) alg) then Raise InvalidAlgorithmError
              else if negb (is_pyjwt_algorithm alg) then Raise InvalidAlgorithmError
              else if String.eqb alg "none" then
                match key with PNone => Raise InvalidSignatureError | _ => Raise InvalidKeyError end
              else Raise TypeError
          end
      end
  | _ =>
      match token_decode jwt_token with
      | None => Raise DecodeError
      | Some _ => Raise InvalidAlgorithmError
      end
  end.

Definition _validate_token (v : AuthServiceJWTValidator) (jwt_token : string) (now : Z)
  : result dict :=
  match decode_with_state v jwt_token now with
  | Ok decoded_payload => Ok decoded_payload
  | Raise e =>
      if catches DecodeError e then Raise JWTTokenInvalidException
      else if catches ExpiredSignatureError e then Raise JWTTokenInvalidException
      else if catches InvalidAlgorithmError e then Raise JWTTokenInvalidException
      else Raise e
  end.

Definition read_jwt_token (v : AuthServiceJWTValidator) (jwt_token : string) (now : Z)
  : result (string * token_details) :=
  read_jwt_token_with (fun t => _validate_token v t now) jwt_token.

(** [try: self._query_auth_service_api(...)
     except FailedGettingAuthServiceResponseException: raise ...] *)
Definition reraise_failed_getting {A} (r : result A) : result A :=
  match r with
  | Raise e => if catches FailedGettingAuthServiceResponseException e
               then Raise FailedGettingAuthServiceResponseException else Raise e
  | Ok a => Ok a
  end.

(** Proleptic Gregorian year of the day [days] after 1970-01-01. *)
Definition year_of_days (days : Z) : Z :=
  let z := days + 719468 in
  let era := z / 146097 in
  let doe := z - era * 146097 in
  let yoe := (doe - doe / 1460 + doe / 36524 - doe / 146096) / 365 in
  let doy := doe - (365 * yoe + yoe / 4 - yoe / 100) in
  let mp := (5 * doy + 2) / 153 in
  yoe + era * 400 + (if mp <? 10 then 0 else 1).

(** The whole seconds of [datetime.min] and [datetime.max]. *)
Definition DATETIME_MIN_S : Z := -62135596800.
Definition DATETIME_MAX_S : Z := 253402300799.

(** [datetime.utcfromtimestamp(v)] for a JSON value (CPython on Linux): a
    value that is not an [int] (a [bool] is one) raises [TypeError]; an
    instant of years 1 to 9999 gives that [datetime]; outside, an [int]
    beyond [time_t] raises [OverflowError], a year that [gmtime] cannot
    hold in an [int] raises [OSError] ([EOVERFLOW]), and any other year
    raises [ValueError] ("year ... is out of range"). *)
Definition utcfromtimestamp (v : pyval) : result Z :=
  t <- match v with
       | PInt z => Ok z
       | PBool b => Ok (if b then 1 else 0)
       | _ => Raise TypeError
       end ;;
  if (DATETIME_MIN_S <=? t) && (t <=? DATETIME_MAX_S) then Ok (t * US_PER_SECOND)
  else if negb ((- 2 ^ 63 <=? t) && (t <=? 2 ^ 63 - 1)) then Raise OverflowError
  else
    let y := year_of_days (t / 86400) in
    if negb ((- 2 ^ 31 <=? y - 1900) && (y - 1900 <=? 2 ^ 31 - 1)) then Raise OSError
    else Raise ValueError.

Example utcfromtimestamp_bounds :
  map (fun t => utcfromtimestamp (PInt t))
    [DATETIME_MAX_S + 1; DATETIME_MIN_S - 1; 10 ^ 12; 10 ^ 17; 2 ^ 63]
  = [Raise ValueError; Raise ValueError; Raise ValueError; Raise OSError; Raise OverflowError]
  /\ year_of_days (DATETIME_MAX_S / 86400) = 9999 /\ year_of_days (DATETIME_MIN_S / 86400) = 1
  /\ year_of_days 0 = 1970 /\ year_of_days (-1) = 1969.
Proof. vm_compute. repeat split. Qed.

(** [_get_microservice_jwt_token_from_auth_service]: [response] is what
    [_query_auth_service_api] gives for the POST to the issue route (its
    failures are [FailedGettingAuthServiceResponseException]); [now] is
    the instant of the token's validation. *)
Definition _get_microservice_jwt_token_from_auth_service
    (v : AuthServiceJWTValidator) (response : result dict) (now : Z)
  : result unit * AuthServiceJWTValidator :=
  match reraise_failed_getting response with
  | Raise e => (Raise e, v)
  | Ok auth_service_response =>
      match subscript auth_service_response "jwt_token" with
      | Raise e =>
          (if catches KeyError e then Raise FailedGettingAuthServiceResponseException
           else Raise e, v)
      | Ok token =>
          let v1 := set_microservice_jwt_token v token in
          let expire :=
            payload <- match token with
                       | PStr t => _validate_token v1 t now
                       | _ => Raise JWTTokenInvalidException  (* DecodeError: not a str *)
                       end ;;
            jwt_token_expire_unix_time <- subscript payload "exp" ;;
            utcfromtimestamp jwt_token_expire_unix_time in
          match expire with
          | Raise e =>
              (if catches KeyError e then Raise FailedGettingAuthServiceResponseException
               else Raise e, v1)
          | Ok us => (Ok tt, set_expire_datetime v1 (PDatetime us))
          end
      end
  end.

(** [_set_public_key_from_auth_service]: [response] is the GET answer. *)
Definition _set_public_key_from_auth_service
    (v : AuthServiceJWTValidator) (response : result dict)
  : result unit * AuthServiceJWTValidator :=
  match reraise_failed_getting response with
  | Raise e => (Raise e, v)
  | Ok auth_service_response =>
      match subscript auth_service_response "public_key" with
      | Raise _ => (Raise FailedGettingAuthServiceResponseException, v)
      | Ok pk =>
          let v1 := set_public_key v pk in
          match subscript auth_service_response "key_format_algorithm" with
          | Raise _ => (Raise FailedGettingAuthServiceResponseException, v1)
          | Ok alg => (Ok tt, set_key_algorithm v1 alg)
          end
      end
  end.

(** [get_microservice_jwt] at instant [now] ([datetime.utcnow()]); a refresh
    performs one exchange with the AUTH SERVICE, answered by [response].
    The result is the returned value, the number of exchanges made and the
    new state. *)
Definition ONE_MINUTE : Z := 60 * US_PER_SECOND.

Definition get_microservice_jwt (v : AuthServiceJWTValidator) (now : Z)
    (response : result dict) : result pyval * nat * AuthServiceJWTValidator :=
  let jwt_real_expire_time := now - ONE_MINUTE in
  match py_lt (_microservice_jwt_token_expire_datetime v) (PDatetime jwt_real_expire_time) with
  | Raise e => (Raise e, 0%nat, v)
  | Ok true =>
      let (r, v') := _get_microservice_jwt_token_from_auth_service v response now in
      match r with
      | Ok _ => (Ok (_microservice_jwt_token v'), 1%nat, v')
      | Raise e => (Raise e, 1%nat, v')
      end
  | Ok false => (Ok (_microservice_jwt_token v), 0%nat, v)
  end.

(** [initial_jwt_validator]: the [while] loop, run for at most [fuel]
    iterations.  The [k]-th attempt (from 0) gets the answers
    [public_key_response k] and [token_response k]; [sleep(10)] advances the
    clock by ten seconds and is accounted in [slept]. *)
Inductive init_outcome : Type :=
| InitReturned (v : AuthServiceJWTValidator)
| InitRaised (e : py_exc) (v : AuthServiceJWTValidator)
| InitRunning (attempts_made : nat) (slept : Z) (v : AuthServiceJWTValidator).

Fixpoint initial_loop (public_key_response token_response : nat -> result dict)
    (fuel : nat) (v : AuthServiceJWTValidator) (attempts max_attempts : Z)
    (k : nat) (now slept : Z) : init_outcome :=
  match fuel with
  | O => InitRunning k slept v
  | S fuel' =>
      if attempts <? max_attempts then
        let (r1, v1) := _set_public_key_from_auth_service v (public_key_response k) in
        let (r, v2) :=
          match r1 with
          | Ok _ => _get_microservice_jwt_token_from_auth_service v1 (token_response k) now
          | Raise e => (Raise e, v1)
          end in
        match r with
        | Ok _ => InitReturned v2
        | Raise e =>
            if catches FailedGettingAuthServiceResponseException e then
              (* logger.critical(...); sleep(10) *)
              initial_loop public_key_response token_response fuel' v2
                attempts max_attempts (S k) (now + 10 * US_PER_SECOND) (slept + 10)
            else InitRaised e v2
        end
      else InitRaised FailedInitializingAuthServiceJWTValidatorClassException v
  end.

Definition initial_jwt_validator (public_key_response token_response : nat -> result dict)
    (fuel : nat) (v : AuthServiceJWTValidator) (now : Z) : init_outcome :=
  let attempts := 0 in
  let max_attempts := 3 in
  initial_loop public_key_response token_response fuel v attempts max_attempts 0 now 0.

(** [_query_auth_service_api]: the request it builds and what it makes of
    [requests.request]'s outcome, [send]. *)
Inductive http_reply : Type :=
| RequestException                                  (** [requests.exceptions.RequestException] *)
| Reply (status_code : Z) (json : option dict).     (** [None]: [request.json()] raises [ValueError] *)

Record http_request : Type := {
  req_method : string;
  req_url : string;
  req_headers : list (string * string);
  req_json : dict }.

Definition _query_auth_service_api (send : http_request -> http_reply)
    (auth_service_address api_route method : string)
    (authorization_jwt : option string) (request_data : option dict)
  : http_request * result dict :=
  let get_public_key_endpoint := auth_service_address ++ api_route in
  let headers := [("Content-Type", "application/json")] in
  let json_data : dict := [] in
  let headers :=
    match authorization_jwt with
    | Some jwt => List.app headers [("Authorization", "Bearer " ++ jwt)]
    | None => headers
    end in
  let json_data :=
    match request_data with
    | Some d => fold_left (fun acc kv => dict_set acc (fst kv) (snd kv)) d json_data
    | None => json_data
    end in
  let request := {| req_method := method; req_url := get_public_key_endpoint;
                    req_headers := headers; req_json := json_data |} in
  (request,
   match send request with
   | RequestException => Raise FailedGettingAuthServiceResponseException
   | Reply status_code json =>
       if negb ((200 <=? status_code) && (status_code <=? 299)) then
         Raise FailedGettingAuthServiceResponseException
       else match json with
            | Some auth_service_response => Ok auth_service_response
            | None => Raise FailedGettingAuthServiceResponseException
            end
   end).

End ValidatorModel.

End Validator.

(** ** A concrete instance of the library interface

    A prefix-free serialisation of decoded tokens and a toy key pair, used
    to run the definitions on concrete tokens. *)

Module ToyJWT.

Definition tag (c : ascii) (s : string) : string := String c s.

Fixpoint enc_str (s : string) : string :=
  match s with
  | EmptyString => tag "e" EmptyString
  | String c r => tag "c" (String c (enc_str r))
  end.

Fixpoint dec_str (s : string) : option (string * string) :=
  match s with
  | String t r =>
      if Ascii.eqb t "e" then Some (EmptyString, r)
      else if Ascii.eqb t "c" then
        match r with
        | String c r' =>
            match dec_str r' with
            | Some (x, r'') => Some (String c x, r'')
            | None => None
            end
        | EmptyString => None
        end
      else None
  | EmptyString => None
  end.

Fixpoint enc_pos (p : positive) : string :=
  match p with
  | xI p' => tag "1" (enc_pos p')
  | xO p' => tag "0" (enc_pos p')
  | xH => tag "h" EmptyString
  end.

Fixpoint dec_pos (s : string) : option (positive * string) :=
  match s with
  | String t r =>
      if Ascii.eqb t "h" then Some (xH, r)
      else if Ascii.eqb t "1" then
        match dec_pos r with Some (p, r') => Some (xI p, r') | None => None end
      else if Ascii.eqb t "0" then
        match dec_pos r with Some (p, r') => Some (xO p, r') | None => None end
      else None
  | EmptyString => None
  end.

Definition enc_Z (z : Z) : string :=
  match z with
  | Z0 => tag "z" EmptyString
  | Zpos p => tag "p" (enc_pos p)
  | Zneg p => tag "n" (enc_pos p)
  end.

Definition dec_Z (s : string) : option (Z * string) :=
  match s with
  | String t r =>
      if Ascii.eqb t "z" then Some (Z0, r)
      else if Ascii.eqb t "p" then
        match dec_pos r with Some (p, r') => Some (Zpos p, r') | None => None end
      else if Ascii.eqb t "n" then
        match dec_pos r with Some (p, r') => Some (Zneg p, r') | None => None end
      else None
  | EmptyString => None
  end.

Definition enc_val (v : pyval) : string :=
  match v with
  | PStr s => tag "s" (enc_str s)
  | PInt z => tag "i" (enc_Z z)
  | PBool true => tag "t" EmptyString
  | PBool false => tag "f" EmptyString
  | PNone => tag "N" EmptyString
  | PDatetime z => tag "d" (enc_Z z)
  end.

Definition dec_val (s : string) : option (pyval * string) :=
  match s with
  | String t r =>
      if Ascii.eqb t "s" then
        match dec_str r with Some (x, r') => Some (PStr x, r') | None => None end
      else if Ascii.eqb t "i" then
        match dec_Z r with Some (x, r') => Some (PInt x, r') | None => None end
      else if Ascii.eqb t "t" then Some (PBool true, r)
      else if Ascii.eqb t "f" then Some (PBool false, r)
      else if Ascii.eqb t "N" then Some (PNone, r)
      else if Ascii.eqb t "d" then
        match dec_Z r with Some (x, r') => Some (PDatetime x, r') | None => None end
      else None
  | EmptyString => None
  end.

Fixpoint enc_dict (d : dict) : string :=
  match d with
  | [] => EmptyString
  | (k, v) :: d' => enc_str k ++ enc_val v ++ enc_dict d'
  end.

(** [n] entries *)
Fixpoint dec_dict (n : nat) (s : string) : option (dict * string) :=
  match n with
  | O => Some ([], s)
  | S n' =>
      match dec_str s with
      | None => None
      | Some (k, r1) =>
          match dec_val r1 with
          | None => None
          | Some (v, r2) =>
              match dec_dict n' r2 with
              | None => None
              | Some (d, r3) => Some ((k, v) :: d, r3)
              end
          end
      end
  end.

Definition token_encode (j : jwt) : string :=
  enc_str (jwt_alg j) ++ enc_Z (Z.of_nat (List.length (jwt_payload j)))
  ++ enc_dict (jwt_payload j) ++ enc_Z (jwt_sig j).

Definition token_decode (s : string) : option jwt :=
  match dec_str s with
  | None => None
  | Some (alg, r1) =>
      match dec_Z r1 with
      | None => None
      | Some (n, r2) =>
          match dec_dict (Z.to_nat n) r2 with
          | None => None
          | Some (p, r3) =>
              match dec_Z r3 with
              | Some (sig, EmptyString) =>
                  Some {| jwt_alg := alg; jwt_payload := p; jwt_sig := sig |}
              | _ => None
              end
          end
      end
  end.

(** The key pair ["priv"] / ["pub"]: only the private key loads for
    signing, its signature is [1], and the public key accepts exactly
    that. *)
Definition sign_bytes (key alg : string) (p : dict) : result Z :=
  if String.eqb key "priv" then Ok 1 else Raise InvalidKeyError.

Definition verify_sig (key alg : string) (p : dict) (sig : Z) : bool :=
  String.eqb key "pub" && Z.eqb sig 1.

End ToyJWT.

(** The registered claims PyJWT reads when encoding or decoding, apart
    from [exp], which [sign_token] overwrites. *)
Definition CHECKED_REGISTERED_CLAIMS : list string := ["iss"; "sub"; "aud"; "nbf"; "iat"; "jti"].

(** A claims payload as the issuer builds it: JSON values only, and none
    of the registered claims of [CHECKED_REGISTERED_CLAIMS]. *)
Definition valid_claims_payload (P : dict) : bool :=
  forallb (fun kv => json_serializable (snd kv)
                     && negb (existsb (String.eqb (fst kv)) CHECKED_REGISTERED_CLAIMS)) P.

(** The key pair and settings used to run the issuer on concrete tokens. *)
Definition toy_helper : JWTHelper :=
  {| _private_key := "priv"; _public_key := "pub";
     _expiration_time_in_hours := 1; _key_algorithm := "RS256" |}.

(** * Properties *)

(** ** The concrete instance satisfies the library interface *)

Module ToyJWTFacts.
Import ToyJWT.

Lemma string_app_assoc (a b c : string) : (a ++ b) ++ c = a ++ (b ++ c).
Proof. induction a as [|x a IH]; simpl; [reflexivity | now rewrite IH]. Qed.

Lemma dec_enc_str (s r : string) : dec_str (enc_str s ++ r) = Some (s, r).
Proof. induction s as [|c s IH]; cbn; [reflexivity | now rewrite IH]. Qed.

Lemma dec_enc_pos (p : positive) (r : string) : dec_pos (enc_pos p ++ r) = Some (p, r).
Proof. induction p as [p IH|p IH|]; cbn; try rewrite IH; reflexivity. Qed.

Lemma dec_enc_Z (z : Z) (r : string) : dec_Z (enc_Z z ++ r) = Some (z, r).
Proof. destruct z; cbn; try rewrite dec_enc_pos; reflexivity. Qed.

Lemma dec_enc_val (v : pyval) (r : string) : dec_val (enc_val v ++ r) = Some (v, r).
Proof.
  destruct v as [s|z|[|]| |z]; cbn;
    try rewrite dec_enc_str; try rewrite dec_enc_Z; reflexivity.
Qed.

Lemma dec_enc_dict (d : dict) (r : string) :
  dec_dict (List.length d) (enc_dict d ++ r) = Some (d, r).
Proof.
  induction d as [|[k v] d IH]; [reflexivity|].
  cbn [enc_dict List.length dec_dict].
  rewrite !string_app_assoc, dec_enc_str, dec_enc_val, IH. reflexivity.
Qed.

Lemma token_decode_encode (j : jwt) : token_decode (token_encode j) = Some j.
Proof.
  destruct j as [alg p sig]. unfold token_decode, token_encode; cbn [jwt_alg jwt_payload jwt_sig].
  rewrite dec_enc_str, dec_enc_Z, Nat2Z.id, dec_enc_dict.
  replace (enc_Z sig) with (enc_Z sig ++ EmptyString).
  - rewrite dec_enc_Z. reflexivity.
  - clear. induction (enc_Z sig) as [|c s IH]; simpl; [reflexivity | now rewrite IH].
Qed.

Lemma toy_key_pair (alg : string) (p : dict) (sig : Z) :
  sign_bytes "priv" alg p = Ok sig -> verify_sig "pub" alg p sig = true.
Proof. simpl. intros H. inversion H. reflexivity. Qed.

End ToyJWTFacts.

(** ** Authorization header parsing *)

Lemma py_split_space_nonempty (s : string) : py_split_space s <> [].
Proof.
  destruct s as [|c s]; simpl; [discriminate|].
  destruct (Ascii.eqb c " "); [discriminate|].
  destruct (py_split_space s); discriminate.
Qed.

(** C7: [parse_auth_bearer_header] returns [t] exactly when the header splits
    on single spaces into the two parts ["Bearer"] and a non-empty [t]; every
    other input fails with [AuthorizationHeaderInvalidHeaderFormat]. In
    particular ["Bearer abc"] gives ["abc"], and ["Bearer"], ["Bearer  "],
    ["Token abc"] and ["Bearer a b"] fail. *)
Theorem parse_auth_bearer_header_contract :
  (forall s t, parse_auth_bearer_header s = Ok t <->
               py_split_space s = ["Bearer"; t] /\ t <> "") /\
  (forall s e, parse_auth_bearer_header s = Raise e ->
               e = AuthorizationHeaderInvalidHeaderFormat) /\
  parse_auth_bearer_header "Bearer abc" = Ok "abc" /\
  parse_auth_bearer_header "Bearer" = Raise AuthorizationHeaderInvalidHeaderFormat /\
  parse_auth_bearer_header "Bearer  " = Raise AuthorizationHeaderInvalidHeaderFormat /\
  parse_auth_bearer_header "Token abc" = Raise AuthorizationHeaderInvalidHeaderFormat /\
  parse_auth_bearer_header "Bearer a b" = Raise AuthorizationHeaderInvalidHeaderFormat.
Proof.
  split; [|split; [|repeat split; reflexivity]].
  - intros s t. unfold parse_auth_bearer_header.
    destruct (py_split_space s) as [|a [|b [|c rest]]]; simpl.
    + split; [discriminate | intros [H _]; discriminate].
    + split; [discriminate | intros [H _]; discriminate].
    + destruct (String.eqb_spec a "Bearer") as [->|Ha]; simpl.
      * destruct b as [|x b]; simpl.
        -- split; [discriminate | intros [H1 H2]; inversion H1; congruence].
        -- split; [intros H; inversion H; subst; split; [reflexivity | discriminate]
                  | intros [H _]; inversion H; reflexivity].
      * split; [discriminate | intros [H _]; inversion H; congruence].
    + split; [discriminate | intros [H _]; discriminate].
  - intros s e. unfold parse_auth_bearer_header.
    destruct (py_split_space s) as [|a [|b [|c rest]]]; simpl;
      try (intros H; inversion H; reflexivity).
    destruct (String.eqb a "Bearer"); simpl; [|intros H; inversion H; reflexivity].
    destruct b; simpl; intros H; inversion H; reflexivity.
Qed.

(** ** Reading tokens *)

(** C8: whenever PyJWT's decoding fails with a bad signature (an
    [InvalidSignatureError], or a [DecodeError] for a malformed token) or
    with [ExpiredSignatureError], [read_jwt_token] raises the one exception
    [JWTInvalidAuthException], in [JWTIssuer] and in
    [AuthServiceJWTValidator] alike. *)
Theorem read_jwt_token_collapses_crypto_failures
    (token_decode : string -> option jwt)
    (verify_sig : string -> string -> dict -> Z -> bool) :
  (forall h tok now e,
     jwt_decode token_decode verify_sig tok (_public_key h) [_key_algorithm h] now = Raise e ->
     e = InvalidSignatureError \/ e = DecodeError \/ e = ExpiredSignatureError ->
     issuer_read_jwt_token token_decode verify_sig {| _jwt_helper := h |} tok now
     = Raise JWTInvalidAuthException) /\
  (forall v tok now e,
     Validator.decode_with_state token_decode verify_sig v tok now = Raise e ->
     e = InvalidSignatureError \/ e = DecodeError \/ e = ExpiredSignatureError ->
     Validator.read_jwt_token token_decode verify_sig v tok now
     = Raise JWTInvalidAuthException).
Proof.
  split.
  - intros h tok now e Hdec He.
    unfold issuer_read_jwt_token, read_jwt_token_with, validate_token; simpl.
    rewrite Hdec. destruct He as [-> | [-> | ->]]; reflexivity.
  - intros v tok now e Hdec He.
    unfold Validator.read_jwt_token, read_jwt_token_with, Validator._validate_token.
    rewrite Hdec. destruct He as [-> | [-> | ->]]; reflexivity.
Qed.

(** C4 (the code's behaviour): once the token's signature and expiry are
    accepted, a payload without [token_type] makes [read_jwt_token] raise
    a bare [KeyError] (the subscript is outside the parsing helpers that
    turn [KeyError] into [FailedParsingJWTToken]); a [token_type] that is
    neither ["microservice"] nor ["registered_user"] gives
    [FailedParsingJWTToken].  The body is the same in both classes. *)
Theorem read_jwt_token_missing_token_type_KeyError
    (validate : string -> result dict) (tok : string) (payload : dict) :
  validate tok = Ok payload ->
  (dict_get payload "token_type" = None ->
   read_jwt_token_with validate tok = Raise KeyError) /\
  (forall v, dict_get payload "token_type" = Some v ->
   py_eq_str v MICROSERVICE_KEY_VALUE = false ->
   py_eq_str v REGISTERED_USER_KEY_VALUE = false ->
   read_jwt_token_with validate tok = Raise FailedParsingJWTToken).
Proof.
  intros Hv. unfold read_jwt_token_with, subscript. rewrite Hv. simpl.
  split.
  - intros Hn. rewrite Hn. reflexivity.
  - intros v Hs Hm Hr. rewrite Hs. simpl. rewrite Hm. simpl. rewrite Hr. reflexivity.
Qed.

(** C9 (the code's behaviour): [JWTHelper.validate_token] handles only
    [DecodeError] and [ExpiredSignatureError]; a token whose header names an
    algorithm other than the configured one makes PyJWT raise
    [InvalidAlgorithmError], which [is_token_valid] lets through instead of
    returning [False]. *)
Theorem is_token_valid_raises_on_other_algorithm
    (token_decode : string -> option jwt)
    (verify_sig : string -> string -> dict -> Z -> bool)
    (self : JWTIssuer) (tok : string) (now : Z) (j : jwt) :
  token_decode tok = Some j ->
  jwt_alg j <> _key_algorithm (_jwt_helper self) ->
  is_token_valid token_decode verify_sig self tok now = Raise InvalidAlgorithmError.
Proof.
  intros Hd Ha. unfold is_token_valid, validate_token, jwt_decode. rewrite Hd.
  simpl. destruct (String.eqb_spec (jwt_alg j) (_key_algorithm (_jwt_helper self)));
    [contradiction | reflexivity].
Qed.

(** C3 (the code's behaviour): for a header carrying a microservice token
    whose [service_name] equals the expected name,
    [verify_micro_service_jwt_token] runs off the end of the method and
    returns [None] instead of the token's claims object. *)
Theorem verify_micro_service_jwt_token_matching_name_returns_None
    (read_jwt_token : string -> result (string * token_details))
    (header tok name : string) (token_type : pyval) :
  parse_auth_bearer_header header = Ok tok ->
  read_jwt_token tok = Ok (MICROSERVICE_KEY_VALUE, JWTTokenMicroService token_type (PStr name)) ->
  verify_micro_service_jwt_token read_jwt_token header (Some name) = Ok None.
Proof.
  intros Hp Hr. unfold verify_micro_service_jwt_token. rewrite Hp. simpl.
  rewrite Hr. simpl. rewrite String.eqb_refl. reflexivity.
Qed.

(** ** The Bootstrap Client *)

Module BootstrapFacts.
Import Validator.

Section WithLibrary.

Variable token_decode : string -> option jwt.
Variable verify_sig : string -> string -> dict -> Z -> bool.

Lemma set_public_key_keeps_expiry (v : AuthServiceJWTValidator) (response : result dict)
    (r : result unit) (v' : AuthServiceJWTValidator) :
  _set_public_key_from_auth_service v response = (r, v') ->
  _microservice_jwt_token_expire_datetime v' = _microservice_jwt_token_expire_datetime v.
Proof.
  unfold _set_public_key_from_auth_service.
  destruct (reraise_failed_getting response) as [resp|e];
    [|intros H; inversion H; reflexivity].
  destruct (subscript resp "public_key"); [|intros H; inversion H; reflexivity].
  destruct (subscript resp "key_format_algorithm"); intros H; inversion H; reflexivity.
Qed.

(** The expiry is written only when the token exchange succeeds. *)
Lemma failed_exchange_keeps_expiry (v : AuthServiceJWTValidator) (response : result dict)
    (now : Z) (e : py_exc) (v' : AuthServiceJWTValidator) :
  _get_microservice_jwt_token_from_auth_service token_decode verify_sig v response now
  = (Raise e, v') ->
  _microservice_jwt_token_expire_datetime v' = _microservice_jwt_token_expire_datetime v.
Proof.
  unfold _get_microservice_jwt_token_from_auth_service.
  destruct (reraise_failed_getting response) as [resp|e'];
    [|intros H; inversion H; reflexivity].
  destruct (subscript resp "jwt_token") as [token|e'];
    [|intros H; inversion H; reflexivity].
  match goal with |- context [match ?x with Ok _ => _ | Raise _ => _ end] =>
    destruct x end;
    intros H; inversion H; reflexivity.
Qed.

Definition outcome_state (o : init_outcome) : option AuthServiceJWTValidator :=
  match o with
  | InitReturned _ => None
  | InitRaised _ v | InitRunning _ _ v => Some v
  end.

Lemma initial_loop_unfinished_keeps_expiry
    (public_key_response token_response : nat -> result dict) (fuel : nat) :
  forall v attempts max_attempts k now slept v',
  outcome_state (initial_loop token_decode verify_sig public_key_response token_response
                   fuel v attempts max_attempts k now slept) = Some v' ->
  _microservice_jwt_token_expire_datetime v' = _microservice_jwt_token_expire_datetime v.
Proof.
  induction fuel as [|fuel IH]; intros v attempts max_attempts k now slept v';
    cbn [initial_loop].
  - intros H; inversion H; reflexivity.
  - destruct (attempts <? max_attempts); [|intros H; inversion H; reflexivity].
    destruct (_set_public_key_from_auth_service v (public_key_response k)) as [r1 v1] eqn:E1.
    pose proof (set_public_key_keeps_expiry _ _ _ _ E1) as K1.
    destruct r1 as [u|e1].
    + destruct (_get_microservice_jwt_token_from_auth_service token_decode verify_sig v1
                  (token_response k) now) as [r v2] eqn:E2.
      destruct r as [u'|e]; [discriminate|].
      pose proof (failed_exchange_keeps_expiry _ _ _ _ _ E2) as K2.
      destruct (catches FailedGettingAuthServiceResponseException e).
      * intros H. rewrite (IH _ _ _ _ _ _ _ H). congruence.
      * intros H; inversion H; subst; congruence.
    + destruct (catches FailedGettingAuthServiceResponseException e1).
      * intros H. rewrite (IH _ _ _ _ _ _ _ H). congruence.
      * intros H; inversion H; subst; congruence.
Qed.

Lemma initial_loop_unreachable_auth_service
    (public_key_response token_response : nat -> result dict)
    (Hdown : forall k, public_key_response k = Raise FailedGettingAuthServiceResponseException)
    (v : AuthServiceJWTValidator) (fuel : nat) :
  forall k now slept,
  initial_loop token_decode verify_sig public_key_response token_response fuel v 0 3 k now slept
  = InitRunning (k + fuel) (slept + 10 * Z.of_nat fuel) v.
Proof.
  induction fuel as [|fuel IH]; intros k now slept; simpl.
  - rewrite Nat.add_0_r, Z.add_0_r. reflexivity.
  - rewrite Hdown. simpl. rewrite IH.
    f_equal; [lia | lia].
Qed.

End WithLibrary.

End BootstrapFacts.

(** C1 (the code's behaviour): with a cached expiry [e], [get_microservice_jwt]
    refreshes (one exchange) exactly when [e] lies more than one minute in the
    past ([e < now - 1 min]); for any expiry no earlier than that it returns
    the cached token without any exchange, so a token 30 seconds from
    expiry (or already expired less than a minute ago) is not renewed. *)
Theorem get_microservice_jwt_refresh_condition
    (token_decode : string -> option jwt)
    (verify_sig : string -> string -> dict -> Z -> bool)
    (v : Validator.AuthServiceJWTValidator) (now : Z) (response : result dict) (e : Z) :
  Validator._microservice_jwt_token_expire_datetime v = PDatetime e ->
  (snd (fst (Validator.get_microservice_jwt token_decode verify_sig v now response)) = 1%nat
   <-> e < now - Validator.ONE_MINUTE) /\
  (now - Validator.ONE_MINUTE <= e ->
   Validator.get_microservice_jwt token_decode verify_sig v now response
   = (Ok (Validator._microservice_jwt_token v), 0%nat, v)).
Proof.
  intros He. unfold Validator.get_microservice_jwt. rewrite He. simpl.
  destruct (Z.ltb_spec e (now - Validator.ONE_MINUTE)) as [Hlt|Hge].
  - destruct (Validator._get_microservice_jwt_token_from_auth_service
                token_decode verify_sig v response now) as [[u|ex] v'].
    + split; [split; [intros _; exact Hlt | intros _; reflexivity] | intros; lia].
    + split; [split; [intros _; exact Hlt | intros _; reflexivity] | intros; lia].
  - split; [split; [intros H; discriminate H | intros; lia] | intros _; reflexivity].
Qed.

(** C2 (the code's behaviour): the retry loop of [initial_jwt_validator]
    never increments [attempts], so when the AUTH SERVICE never answers, every
    run of [n] iterations has made [n] attempts and slept [10 * n] seconds,
    and is still looping: it never raises
    [FailedInitializingAuthServiceJWTValidatorClassException]. *)
Theorem initial_jwt_validator_loops_when_auth_service_down
    (token_decode : string -> option jwt)
    (verify_sig : string -> string -> dict -> Z -> bool)
    (public_key_response token_response : nat -> result dict)
    (v : Validator.AuthServiceJWTValidator) (now : Z) :
  (forall k, public_key_response k = Raise FailedGettingAuthServiceResponseException) ->
  forall fuel,
    Validator.initial_jwt_validator token_decode verify_sig public_key_response
      token_response fuel v now = Validator.InitRunning fuel (10 * Z.of_nat fuel) v /\
    (forall e v', Validator.initial_jwt_validator token_decode verify_sig
                    public_key_response token_response fuel v now
                  <> Validator.InitRaised e v').
Proof.
  intros Hdown fuel. unfold Validator.initial_jwt_validator.
  rewrite (BootstrapFacts.initial_loop_unreachable_auth_service
             token_decode verify_sig _ _ Hdown v fuel 0 now 0).
  split; [reflexivity | intros e v' H; discriminate].
Qed.

(** C10: before a successful [initial_jwt_validator] the cached expiry is
    still [None]: right after construction, and after an initialisation run
    that raised or has not finished.  [get_microservice_jwt] then compares
    [None] with a [datetime] and raises [TypeError], making no exchange. *)
Theorem get_microservice_jwt_before_initialisation
    (token_decode : string -> option jwt)
    (verify_sig : string -> string -> dict -> Z -> bool) :
  (forall initial_token name now response,
     Validator.get_microservice_jwt token_decode verify_sig
       (Validator.init initial_token name) now response
     = (Raise TypeError, 0%nat, Validator.init initial_token name)) /\
  (forall public_key_response token_response fuel initial_token name now v,
     ((exists e, Validator.initial_jwt_validator token_decode verify_sig
                   public_key_response token_response fuel
                   (Validator.init initial_token name) now = Validator.InitRaised e v) \/
      (exists k slept, Validator.initial_jwt_validator token_decode verify_sig
                   public_key_response token_response fuel
                   (Validator.init initial_token name) now = Validator.InitRunning k slept v)) ->
     Validator._microservice_jwt_token_expire_datetime v = PNone /\
     forall now' response,
       Validator.get_microservice_jwt token_decode verify_sig v now' response
       = (Raise TypeError, 0%nat, v)).
Proof.
  split; [intros; reflexivity|].
  intros pkr tr fuel initial_token name now v Hrun.
  assert (Hs : BootstrapFacts.outcome_state
                 (Validator.initial_jwt_validator token_decode verify_sig pkr tr fuel
                    (Validator.init initial_token name) now) = Some v).
  { destruct Hrun as [[e He] | [k [s Hk]]]; [rewrite He | rewrite Hk]; reflexivity. }
  unfold Validator.initial_jwt_validator in Hs.
  pose proof (BootstrapFacts.initial_loop_unfinished_keeps_expiry
                token_decode verify_sig pkr tr fuel _ _ _ _ _ _ _ Hs) as Hx.
  simpl in Hx. split; [exact Hx|].
  intros now' response. unfold Validator.get_microservice_jwt. rewrite Hx. reflexivity.
Qed.

(** ** Signing and validating *)

Module SigningFacts.

Lemma dict_get_set_same (d : dict) (k : string) (v : pyval) :
  dict_get (dict_set d k v) k = Some v.
Proof.
  induction d as [|[k' v'] d IH]; simpl.
  - rewrite String.eqb_refl. reflexivity.
  - destruct (String.eqb_spec k' k) as [->|Hne]; simpl.
    + rewrite String.eqb_refl. reflexivity.
    + apply String.eqb_neq in Hne. rewrite Hne. exact IH.
Qed.

Lemma dict_get_set_other (d : dict) (k k' : string) (v : pyval) :
  k' <> k -> dict_get (dict_set d k v) k' = dict_get d k'.
Proof.
  intros Hne. induction d as [|[k0 v0] d IH]; simpl.
  - apply String.eqb_neq in Hne. rewrite (String.eqb_sym k k'), Hne. reflexivity.
  - destruct (String.eqb_spec k0 k) as [->|H0]; simpl.
    + apply String.eqb_neq in Hne. rewrite (String.eqb_sym k k'), Hne. reflexivity.
    + destruct (String.eqb k0 k'); [reflexivity | exact IH].
Qed.

Lemma encode_time_claims_json (P : dict) :
  forallb (fun kv => json_serializable (snd kv)) P = true -> encode_time_claims P = P.
Proof.
  induction P as [|[k v] P IH]; simpl; [reflexivity|].
  intros H. apply andb_prop in H as [Hv HP].
  destruct v; simpl in Hv; try discriminate; simpl; f_equal; apply IH; exact HP.
Qed.

Lemma encode_time_claims_set_exp (P : dict) (x : Z) :
  forallb (fun kv => json_serializable (snd kv)) P = true ->
  encode_time_claims (dict_set P "exp" (PDatetime x))
  = dict_set P "exp" (PInt (x / US_PER_SECOND)).
Proof.
  induction P as [|[k v] P IH]; simpl; [reflexivity|].
  intros H. apply andb_prop in H as [Hv HP].
  destruct (String.eqb_spec k "exp") as [->|Hne]; simpl.
  - f_equal. apply encode_time_claims_json. exact HP.
  - destruct v; simpl in Hv; try discriminate; simpl; f_equal; apply IH; exact HP.
Qed.

Lemma json_set (P : dict) (k : string) (v : pyval) :
  forallb (fun kv => json_serializable (snd kv)) P = true ->
  json_serializable v = true ->
  forallb (fun kv => json_serializable (snd kv)) (dict_set P k v) = true.
Proof.
  intros HP Hv. induction P as [|[k' v'] P IH]; simpl in *.
  - rewrite Hv. reflexivity.
  - apply andb_prop in HP as [H1 H2].
    destruct (String.eqb k' k); simpl; rewrite ?Hv, ?H1, ?H2, ?IH; auto.
Qed.

Lemma valid_json (P : dict) :
  valid_claims_payload P = true -> forallb (fun kv => json_serializable (snd kv)) P = true.
Proof.
  induction P as [|[k v] P IH]; simpl; [reflexivity|].
  intros H. apply andb_prop in H as [H1 H2].
  apply andb_prop in H1 as [H1 _]. rewrite H1, (IH H2). reflexivity.
Qed.

Lemma valid_absent (P : dict) (k : string) :
  valid_claims_payload P = true -> In k CHECKED_REGISTERED_CLAIMS ->
  dict_get P k = None.
Proof.
  intros HP Hk. induction P as [|[k' v] P IH]; simpl in *; [reflexivity|].
  apply andb_prop in HP as [H1 H2]. apply andb_prop in H1 as [_ Hreg].
  destruct (String.eqb_spec k' k) as [->|_]; [|exact (IH H2)].
  assert (Hin : existsb (String.eqb k) CHECKED_REGISTERED_CLAIMS = true).
  { apply existsb_exists. exists k. split; [exact Hk | apply String.eqb_refl]. }
  simpl in Hin, Hreg. rewrite Hin in Hreg. discriminate.
Qed.

(** The [exp] written by [sign_token], in seconds, and the payload it
    signs. *)
Definition exp_seconds (h : JWTHelper) (now : Z) : Z :=
  now / US_PER_SECOND + _expiration_time_in_hours h * 3600.

Definition signed_payload (h : JWTHelper) (P : dict) (now : Z) : dict :=
  dict_set P "exp" (PInt (exp_seconds h now)).

Lemma exp_seconds_div (h : JWTHelper) (now : Z) :
  (now + _expiration_time_in_hours h * 3600 * US_PER_SECOND) / US_PER_SECOND
  = exp_seconds h now.
Proof. unfold exp_seconds. apply Z.div_add. unfold US_PER_SECOND. lia. Qed.

(** An instant in [datetime]'s range has its whole second in that range. *)
Lemma exp_seconds_in_range (h : JWTHelper) (now : Z) :
  in_datetime_range (now + _expiration_time_in_hours h * 3600 * US_PER_SECOND) = true ->
  Validator.DATETIME_MIN_S <= exp_seconds h now <= Validator.DATETIME_MAX_S.
Proof.
  rewrite <- exp_seconds_div. unfold in_datetime_range, DATETIME_MIN_US, DATETIME_MAX_US,
    Validator.DATETIME_MIN_S, Validator.DATETIME_MAX_S, US_PER_SECOND.
  set (r := now + _ * 3600 * 1000000). intros H.
  apply andb_prop in H as [H1 H2]. apply Z.leb_le in H1. apply Z.leb_le in H2.
  split.
  - apply Z.div_le_lower_bound; lia.
  - apply Z.lt_succ_r. apply Z.div_lt_upper_bound; lia.
Qed.

Section WithLibrary.

Variable token_encode : jwt -> string.
Variable token_decode : string -> option jwt.
Variable sign_bytes : string -> string -> dict -> result Z.
Variable verify_sig : string -> string -> dict -> Z -> bool.

(** What [sign_token] does with a valid claims payload. *)
Lemma sign_token_outcome (h : JWTHelper) (P : dict) (now : Z) :
  valid_claims_payload P = true ->
  sign_token token_encode sign_bytes h P now
  = if in_datetime_range (now + _expiration_time_in_hours h * 3600 * US_PER_SECOND) then
      if is_pyjwt_algorithm (_key_algorithm h) then
        sig <- sign_bytes (_private_key h) (_key_algorithm h) (signed_payload h P now) ;;
        Ok (token_encode {| jwt_alg := _key_algorithm h; jwt_payload := signed_payload h P now;
                            jwt_sig := sig |})
      else Raise NotImplementedError
    else Raise OverflowError.
Proof.
  intros HP. unfold sign_token, datetime_add.
  destruct (in_datetime_range _) eqn:Hr; simpl; [|reflexivity].
  unfold jwt_encode.
  rewrite dict_get_set_other by discriminate.
  rewrite (valid_absent P "iss" HP) by (simpl; tauto). simpl.
  rewrite (encode_time_claims_set_exp _ _ (valid_json _ HP)), exp_seconds_div.
  rewrite (json_set _ "exp" (PInt (exp_seconds h now)) (valid_json _ HP) eq_refl). simpl.
  destruct (is_pyjwt_algorithm _); reflexivity.
Qed.

Lemma sign_token_ok (h : JWTHelper) (P : dict) (now : Z) (tok : string) :
  valid_claims_payload P = true ->
  sign_token token_encode sign_bytes h P now = Ok tok ->
  in_datetime_range (now + _expiration_time_in_hours h * 3600 * US_PER_SECOND) = true /\
  is_pyjwt_algorithm (_key_algorithm h) = true /\
  exists sig, sign_bytes (_private_key h) (_key_algorithm h) (signed_payload h P now) = Ok sig /\
    tok = token_encode {| jwt_alg := _key_algorithm h; jwt_payload := signed_payload h P now;
                          jwt_sig := sig |}.
Proof.
  intros HP. rewrite (sign_token_outcome h P now HP).
  destruct (in_datetime_range _); [|discriminate].
  destruct (is_pyjwt_algorithm _); [|discriminate].
  destruct (sign_bytes _ _ _) as [sig|e]; simpl; [|discriminate].
  intros H. inversion H. split; [reflexivity|]. split; [reflexivity|].
  exists sig. split; reflexivity.
Qed.

(** [sign_token] signs a valid claims payload when the expiry stays in
    [datetime]'s range, PyJWT knows the algorithm and the key signs. *)
Lemma sign_token_total (h : JWTHelper) (P : dict) (now : Z) :
  in_datetime_range (now + _expiration_time_in_hours h * 3600 * US_PER_SECOND) = true ->
  is_pyjwt_algorithm (_key_algorithm h) = true ->
  (forall p, exists sig, sign_bytes (_private_key h) (_key_algorithm h) p = Ok sig) ->
  valid_claims_payload P = true ->
  exists tok, sign_token token_encode sign_bytes h P now = Ok tok.
Proof.
  intros Hr Halg Hsign HP. rewrite (sign_token_outcome h P now HP), Hr, Halg.
  destruct (Hsign (signed_payload h P now)) as [sig Hs]. rewrite Hs.
  eexists. reflexivity.
Qed.

Hypothesis token_decode_encode : forall j, token_decode (token_encode j) = Some j.

(** Decoding, at any instant, a token made by [sign_token]. *)
Lemma decode_signed (h : JWTHelper) (P : dict) (now : Z) (tok : string) :
  (forall p sig, sign_bytes (_private_key h) (_key_algorithm h) p = Ok sig ->
                 verify_sig (_public_key h) (_key_algorithm h) p sig = true) ->
  valid_claims_payload P = true ->
  sign_token token_encode sign_bytes h P now = Ok tok ->
  forall dnow,
    jwt_decode token_decode verify_sig tok (_public_key h) [_key_algorithm h] dnow
    = if dnow <? exp_seconds h now * US_PER_SECOND then Ok (signed_payload h P now)
      else Raise ExpiredSignatureError.
Proof.
  intros Hkey HP Hs dnow.
  destruct (sign_token_ok h P now tok HP Hs) as [_ [Halg [sig [Hsig ->]]]].
  unfold jwt_decode. rewrite token_decode_encode. simpl.
  rewrite String.eqb_refl. simpl. rewrite Halg. simpl. rewrite (Hkey _ _ Hsig). simpl.
  unfold validate_claims, signed_payload.
  rewrite dict_get_set_other by discriminate.
  rewrite (valid_absent P "iat" HP) by (simpl; tauto). simpl.
  rewrite dict_get_set_other by discriminate.
  rewrite (valid_absent P "nbf" HP) by (simpl; tauto). simpl.
  rewrite dict_get_set_same. simpl.
  destruct (Z.leb_spec (exp_seconds h now * US_PER_SECOND) dnow) as [Hle|Hlt];
    destruct (Z.ltb_spec dnow (exp_seconds h now * US_PER_SECOND)); try lia;
    simpl; [reflexivity|].
  rewrite dict_get_set_other by discriminate.
  rewrite (valid_absent P "aud" HP) by (simpl; tauto). simpl.
  rewrite dict_get_set_other by discriminate.
  rewrite (valid_absent P "sub" HP) by (simpl; tauto). simpl.
  rewrite dict_get_set_other by discriminate.
  rewrite (valid_absent P "jti" HP) by (simpl; tauto). reflexivity.
Qed.

Lemma sign_then_validate (h : JWTHelper) (P : dict) (now dnow : Z) (tok : string) :
  (forall p sig, sign_bytes (_private_key h) (_key_algorithm h) p = Ok sig ->
                 verify_sig (_public_key h) (_key_algorithm h) p sig = true) ->
  valid_claims_payload P = true ->
  sign_token token_encode sign_bytes h P now = Ok tok ->
  dnow < exp_seconds h now * US_PER_SECOND ->
  validate_token token_decode verify_sig h tok dnow = Ok (signed_payload h P now).
Proof.
  intros Hkey HP Hs Hd. unfold validate_token.
  rewrite (decode_signed h P now tok Hkey HP Hs dnow).
  destruct (Z.ltb_spec dnow (exp_seconds h now * US_PER_SECOND)); [reflexivity | lia].
Qed.

End WithLibrary.

End SigningFacts.

(** C6: for a valid claims payload [P] (JSON values, none of the
    registered claims of [CHECKED_REGISTERED_CLAIMS]), a token that
    [sign_token] made decodes with [validate_token] (before its expiry,
    with the matching key pair) to [P] with [exp] set to the signing
    instant plus [expiration_time_in_hours], in the whole seconds of a JWT
    NumericDate; every other claim is [P]'s. *)
Theorem sign_token_validate_token_roundtrip
    (token_encode : jwt -> string) (token_decode : string -> option jwt)
    (sign_bytes : string -> string -> dict -> result Z)
    (verify_sig : string -> string -> dict -> Z -> bool)
    (h : JWTHelper) (P : dict) (now dnow : Z) (tok : string) :
  (forall j, token_decode (token_encode j) = Some j) ->
  (forall p sig, sign_bytes (_private_key h) (_key_algorithm h) p = Ok sig ->
                 verify_sig (_public_key h) (_key_algorithm h) p sig = true) ->
  valid_claims_payload P = true ->
  sign_token token_encode sign_bytes h P now = Ok tok ->
  dnow < (now / US_PER_SECOND + _expiration_time_in_hours h * 3600) * US_PER_SECOND ->
  exists d,
    validate_token token_decode verify_sig h tok dnow = Ok d /\
    dict_get d "exp"
    = Some (PInt (now / US_PER_SECOND + _expiration_time_in_hours h * 3600)) /\
    (forall k, k <> "exp" -> dict_get d k = dict_get P k).
Proof.
  intros Hcodec Hkey HP Hs Hd.
  exists (SigningFacts.signed_payload h P now). split.
  - exact (SigningFacts.sign_then_validate token_encode token_decode sign_bytes verify_sig
             Hcodec h P now dnow tok Hkey HP Hs Hd).
  - split.
    + apply SigningFacts.dict_get_set_same.
    + intros k Hk. apply SigningFacts.dict_get_set_other. exact Hk.
Qed.

(** C5 (as the code has it): [issue_micro_service_jwt] raises the one
    exception [MicroserviceAuthenticationTokenInvalidException], without
    signing anything, both for a name missing from
    [MICROSERVICES_TOKENS_DICT] and for a wrong secret.  With the registered
    secret it returns a token when signing can succeed (the expiry stays in
    [datetime]'s range, PyJWT knows the algorithm, the private key signs);
    any token it returns is read back by [JWTIssuer.read_jwt_token], before
    its expiry, as a ["microservice"] token of that [service_name]. *)
Theorem issue_micro_service_jwt_contract
    (token_encode : jwt -> string) (token_decode : string -> option jwt)
    (sign_bytes : string -> string -> dict -> result Z)
    (verify_sig : string -> string -> dict -> Z -> bool)
    (MICROSERVICES_TOKENS_DICT : list (string * string))
    (self : JWTIssuer) (name secret : string) (now : Z) :
  let details := {| micro_service_name := name; micro_service_initial_token := secret |} in
  let h := _jwt_helper self in
  (lookup_secret MICROSERVICES_TOKENS_DICT name = None ->
   issue_micro_service_jwt token_encode sign_bytes MICROSERVICES_TOKENS_DICT self details now
   = Raise MicroserviceAuthenticationTokenInvalidException) /\
  (forall registered, lookup_secret MICROSERVICES_TOKENS_DICT name = Some registered ->
   registered <> secret ->
   issue_micro_service_jwt token_encode sign_bytes MICROSERVICES_TOKENS_DICT self details now
   = Raise MicroserviceAuthenticationTokenInvalidException) /\
  (lookup_secret MICROSERVICES_TOKENS_DICT name = Some secret ->
   in_datetime_range (now + _expiration_time_in_hours h * 3600 * US_PER_SECOND) = true ->
   is_pyjwt_algorithm (_key_algorithm h) = true ->
   (forall p, exists sig, sign_bytes (_private_key h) (_key_algorithm h) p = Ok sig) ->
   exists tok,
     issue_micro_service_jwt token_encode sign_bytes MICROSERVICES_TOKENS_DICT self details now
     = Ok tok) /\
  (forall tok,
   issue_micro_service_jwt token_encode sign_bytes MICROSERVICES_TOKENS_DICT self details now
   = Ok tok ->
   (forall j, token_decode (token_encode j) = Some j) ->
   (forall p sig, sign_bytes (_private_key h) (_key_algorithm h) p = Ok sig ->
                  verify_sig (_public_key h) (_key_algorithm h) p sig = true) ->
   forall dnow,
   dnow < (now / US_PER_SECOND + _expiration_time_in_hours h * 3600) * US_PER_SECOND ->
   issuer_read_jwt_token token_decode verify_sig self tok dnow
   = Ok (MICROSERVICE_KEY_VALUE,
         JWTTokenMicroService (PStr MICROSERVICE_KEY_VALUE) (PStr name))).
Proof.
  intros details h. unfold issue_micro_service_jwt, _authenticate_service_token; simpl.
  split; [|split; [|split]].
  - intros Hn. rewrite Hn. reflexivity.
  - intros registered Hr Hne. rewrite Hr.
    apply String.eqb_neq in Hne. rewrite Hne. reflexivity.
  - intros Hr Hrange Halg Hsign. rewrite Hr, String.eqb_refl. simpl.
    exact (SigningFacts.sign_token_total token_encode sign_bytes h
             [("service_name", PStr name); ("token_type", PStr MICROSERVICE_KEY_VALUE)]
             now Hrange Halg Hsign eq_refl).
  - intros tok Hs Hcodec Hkey dnow Hd.
    destruct (lookup_secret MICROSERVICES_TOKENS_DICT name) as [registered|];
      [|discriminate].
    destruct (String.eqb registered secret); simpl in Hs; [|discriminate].
    subst h. unfold issuer_read_jwt_token, read_jwt_token_with.
    rewrite (SigningFacts.sign_then_validate token_encode token_decode sign_bytes verify_sig
               Hcodec (_jwt_helper self) (("service_name", PStr name) :: MICROSERVICE) now dnow tok Hkey eq_refl Hs Hd).
    reflexivity.
Qed.

(** * Concrete runs *)

Module Runs.
Import ToyJWT.

Definition toy_issuer : JWTIssuer := {| _jwt_helper := toy_helper |}.

(** A token signed with the private key whose [exp] (10 s) has passed. *)
Definition expired_token : string :=
  token_encode {| jwt_alg := "RS256";
                  jwt_payload := [("token_type", PStr "microservice");
                                  ("service_name", PStr "chat_be"); ("exp", PInt 10)];
                  jwt_sig := 1 |}.

(** A validly signed, unexpired token without [token_type]. *)
Definition untyped_token : string :=
  token_encode {| jwt_alg := "RS256";
                  jwt_payload := [("service_name", PStr "chat_be"); ("exp", PInt 3600)];
                  jwt_sig := 1 |}.

(** A token whose header names [HS256] while the issuer uses [RS256]. *)
Definition hs256_token : string :=
  token_encode {| jwt_alg := "HS256";
                  jwt_payload := [("token_type", PStr "microservice");
                                  ("service_name", PStr "chat_be"); ("exp", PInt 3600)];
                  jwt_sig := 1 |}.

(** A validly signed, unexpired [chat_be] microservice token. *)
Definition chat_be_token : string :=
  token_encode {| jwt_alg := "RS256";
                  jwt_payload := [("service_name", PStr "chat_be");
                                  ("token_type", PStr "microservice"); ("exp", PInt 3600)];
                  jwt_sig := 1 |}.

Definition registry : list (string * string) :=
  [("user_manager", "um-secret"); ("chat_be", "chat-secret")].

(** A validator whose token expires 30 s after [1000] s. *)
Definition cached_validator : Validator.AuthServiceJWTValidator :=
  {| Validator.micro_service_initial_token := "chat-secret";
     Validator.micro_service_name := "chat_be";
     Validator._public_key := PStr "pub"; Validator._key_algorithm := PStr "RS256";
     Validator._microservice_jwt_token := PStr chat_be_token;
     Validator._microservice_jwt_token_expire_datetime :=
       PDatetime (1030 * US_PER_SECOND) |}.

Definition auth_service_down : nat -> result dict :=
  fun _ => Raise FailedGettingAuthServiceResponseException.

End Runs.

Import Runs.

Lemma read_jwt_token_collapses_crypto_failures_witness :
  jwt_decode ToyJWT.token_decode ToyJWT.verify_sig expired_token "pub" ["RS256"]
    (20 * US_PER_SECOND) = Raise ExpiredSignatureError /\
  issuer_read_jwt_token ToyJWT.token_decode ToyJWT.verify_sig toy_issuer expired_token
    (20 * US_PER_SECOND) = Raise JWTInvalidAuthException.
Proof.
  split; [vm_compute; reflexivity|].
  apply (proj1 (read_jwt_token_collapses_crypto_failures ToyJWT.token_decode ToyJWT.verify_sig)
           toy_helper expired_token (20 * US_PER_SECOND) ExpiredSignatureError).
  - vm_compute. reflexivity.
  - right. right. reflexivity.
Defined.

Lemma read_jwt_token_missing_token_type_KeyError_witness :
  validate_token ToyJWT.token_decode ToyJWT.verify_sig toy_helper untyped_token 0
  = Ok [("service_name", PStr "chat_be"); ("exp", PInt 3600)] /\
  issuer_read_jwt_token ToyJWT.token_decode ToyJWT.verify_sig toy_issuer untyped_token 0
  = Raise KeyError.
Proof.
  split; [vm_compute; reflexivity|].
  apply (proj1 (read_jwt_token_missing_token_type_KeyError
                  (fun t => validate_token ToyJWT.token_decode ToyJWT.verify_sig toy_helper t 0)
                  untyped_token [("service_name", PStr "chat_be"); ("exp", PInt 3600)]
                  ltac:(vm_compute; reflexivity))).
  reflexivity.
Defined.

Lemma is_token_valid_raises_on_other_algorithm_witness :
  ToyJWT.token_decode hs256_token <> None /\
  is_token_valid ToyJWT.token_decode ToyJWT.verify_sig toy_issuer hs256_token 0
  = Raise InvalidAlgorithmError.
Proof.
  split; [vm_compute; discriminate|].
  apply (is_token_valid_raises_on_other_algorithm ToyJWT.token_decode ToyJWT.verify_sig
           toy_issuer hs256_token 0
           {| jwt_alg := "HS256";
              jwt_payload := [("token_type", PStr "microservice");
                              ("service_name", PStr "chat_be"); ("exp", PInt 3600)];
              jwt_sig := 1 |}).
  - vm_compute. reflexivity.
  - simpl. discriminate.
Defined.

Lemma verify_micro_service_jwt_token_matching_name_returns_None_witness :
  parse_auth_bearer_header ("Bearer " ++ chat_be_token) = Ok chat_be_token /\
  issuer_read_jwt_token ToyJWT.token_decode ToyJWT.verify_sig toy_issuer chat_be_token 0
  = Ok (MICROSERVICE_KEY_VALUE, JWTTokenMicroService (PStr "microservice") (PStr "chat_be")) /\
  verify_micro_service_jwt_token
    (fun t => issuer_read_jwt_token ToyJWT.token_decode ToyJWT.verify_sig toy_issuer t 0)
    ("Bearer " ++ chat_be_token) (Some "chat_be") = Ok None.
Proof.
  split; [vm_compute; reflexivity|]. split; [vm_compute; reflexivity|].
  apply (verify_micro_service_jwt_token_matching_name_returns_None
           (fun t => issuer_read_jwt_token ToyJWT.token_decode ToyJWT.verify_sig toy_issuer t 0)
           ("Bearer " ++ chat_be_token) chat_be_token "chat_be" (PStr "microservice")).
  - vm_compute. reflexivity.
  - vm_compute. reflexivity.
Defined.

Lemma get_microservice_jwt_refresh_condition_witness :
  Validator._microservice_jwt_token_expire_datetime cached_validator
  = PDatetime (1000 * US_PER_SECOND + 30 * US_PER_SECOND) /\
  Validator.get_microservice_jwt ToyJWT.token_decode ToyJWT.verify_sig cached_validator
    (1000 * US_PER_SECOND) (Ok [("jwt_token", PStr "fresh")])
  = (Ok (PStr chat_be_token), 0%nat, cached_validator).
Proof.
  split; [reflexivity|].
  apply (proj2 (get_microservice_jwt_refresh_condition ToyJWT.token_decode ToyJWT.verify_sig
                  cached_validator (1000 * US_PER_SECOND) (Ok [("jwt_token", PStr "fresh")])
                  (1030 * US_PER_SECOND) eq_refl)).
  unfold Validator.ONE_MINUTE, US_PER_SECOND. lia.
Defined.

Lemma initial_jwt_validator_loops_when_auth_service_down_witness :
  (forall k, auth_service_down k = Raise FailedGettingAuthServiceResponseException) /\
  Validator.initial_jwt_validator ToyJWT.token_decode ToyJWT.verify_sig auth_service_down
    auth_service_down 4 (Validator.init "chat-secret" "chat_be") 0
  = Validator.InitRunning 4 40 (Validator.init "chat-secret" "chat_be").
Proof.
  split; [intros k; reflexivity|].
  apply (proj1 (initial_jwt_validator_loops_when_auth_service_down
                  ToyJWT.token_decode ToyJWT.verify_sig auth_service_down auth_service_down
                  (Validator.init "chat-secret" "chat_be") 0 (fun k => eq_refl) 4)).
Defined.

Lemma get_microservice_jwt_before_initialisation_witness :
  Validator.initial_jwt_validator ToyJWT.token_decode ToyJWT.verify_sig auth_service_down
    auth_service_down 2 (Validator.init "chat-secret" "chat_be") 0
  = Validator.InitRunning 2 20 (Validator.init "chat-secret" "chat_be") /\
  Validator.get_microservice_jwt ToyJWT.token_decode ToyJWT.verify_sig
    (Validator.init "chat-secret" "chat_be") (1000 * US_PER_SECOND) (Ok [])
  = (Raise TypeError, 0%nat, Validator.init "chat-secret" "chat_be").
Proof.
  split; [vm_compute; reflexivity|].
  pose proof (proj2 (get_microservice_jwt_before_initialisation
                       ToyJWT.token_decode ToyJWT.verify_sig)
                auth_service_down auth_service_down 2%nat "chat-secret" "chat_be" 0
                (Validator.init "chat-secret" "chat_be")) as H.
  destruct H as [_ H]; [right; exists 2%nat, 20; vm_compute; reflexivity|].
  apply H.
Defined.

Lemma sign_token_validate_token_roundtrip_witness :
  valid_claims_payload [("token_type", PStr "microservice"); ("service_name", PStr "chat_be")]
  = true /\
  exists tok,
    sign_token ToyJWT.token_encode ToyJWT.sign_bytes toy_helper
      [("token_type", PStr "microservice"); ("service_name", PStr "chat_be")] 0 = Ok tok /\
  exists d,
    validate_token ToyJWT.token_decode ToyJWT.verify_sig toy_helper tok (60 * US_PER_SECOND)
    = Ok d /\
    dict_get d "exp" = Some (PInt (0 / US_PER_SECOND + 1 * 3600)) /\
    (forall k, k <> "exp" ->
       dict_get d k = dict_get [("token_type", PStr "microservice");
                                ("service_name", PStr "chat_be")] k).
Proof.
  split; [reflexivity|].
  set (r := sign_token ToyJWT.token_encode ToyJWT.sign_bytes toy_helper
              [("token_type", PStr "microservice"); ("service_name", PStr "chat_be")] 0).
  set (tok := match r with Ok t => t | Raise _ => EmptyString end).
  assert (Hs : r = Ok tok) by (vm_compute; reflexivity).
  exists tok. split; [exact Hs|].
  apply (sign_token_validate_token_roundtrip ToyJWT.token_encode ToyJWT.token_decode
           ToyJWT.sign_bytes ToyJWT.verify_sig toy_helper
           [("token_type", PStr "microservice"); ("service_name", PStr "chat_be")]
           0 (60 * US_PER_SECOND) tok).
  - exact ToyJWTFacts.token_decode_encode.
  - exact (ToyJWTFacts.toy_key_pair "RS256").
  - reflexivity.
  - exact Hs.
  - vm_compute. reflexivity.
Defined.

Lemma issue_micro_service_jwt_contract_witness :
  lookup_secret registry "chat_be" = Some "chat-secret" /\
  (exists tok,
    issue_micro_service_jwt ToyJWT.token_encode ToyJWT.sign_bytes registry toy_issuer
      {| micro_service_name := "chat_be"; micro_service_initial_token := "chat-secret" |} 0
    = Ok tok) /\
  (forall tok,
    issue_micro_service_jwt ToyJWT.token_encode ToyJWT.sign_bytes registry toy_issuer
      {| micro_service_name := "chat_be"; micro_service_initial_token := "chat-secret" |} 0
    = Ok tok ->
    issuer_read_jwt_token ToyJWT.token_decode ToyJWT.verify_sig toy_issuer tok 0
    = Ok (MICROSERVICE_KEY_VALUE,
          JWTTokenMicroService (PStr MICROSERVICE_KEY_VALUE) (PStr "chat_be"))).
Proof.
  split; [reflexivity|].
  pose proof (issue_micro_service_jwt_contract ToyJWT.token_encode ToyJWT.token_decode
                ToyJWT.sign_bytes ToyJWT.verify_sig registry toy_issuer
                "chat_be" "chat-secret" 0) as [_ [_ [Hok Hread]]].
  split.
  - apply Hok.
    + reflexivity.
    + vm_compute. reflexivity.
    + reflexivity.
    + intros p. exists 1. reflexivity.
  - intros tok Hs. apply (Hread tok Hs).
    + exact ToyJWTFacts.token_decode_encode.
    + exact (ToyJWTFacts.toy_key_pair "RS256").
    + vm_compute. reflexivity.
Defined.

(** C5 as stated: an unknown service name and a wrong secret for a
    registered name do not give two different failures; both raise
    [MicroserviceAuthenticationTokenInvalidException]. *)
Lemma issue_micro_service_jwt_one_failure_kind :
  issue_micro_service_jwt ToyJWT.token_encode ToyJWT.sign_bytes registry toy_issuer
    {| micro_service_name := "unknown_service"; micro_service_initial_token := "chat-secret" |} 0
  = Raise MicroserviceAuthenticationTokenInvalidException /\
  issue_micro_service_jwt ToyJWT.token_encode ToyJWT.sign_bytes registry toy_issuer
    {| micro_service_name := "chat_be"; micro_service_initial_token := "wrong-secret" |} 0
  = Raise MicroserviceAuthenticationTokenInvalidException /\
  ~ (exists e1 e2, e1 <> e2 /\
       issue_micro_service_jwt ToyJWT.token_encode ToyJWT.sign_bytes registry toy_issuer
         {| micro_service_name := "unknown_service";
            micro_service_initial_token := "chat-secret" |} 0 = Raise e1 /\
       issue_micro_service_jwt ToyJWT.token_encode ToyJWT.sign_bytes registry toy_issuer
         {| micro_service_name := "chat_be"; micro_service_initial_token := "wrong-secret" |} 0
       = Raise e2).
Proof.
  split; [reflexivity|]. split; [reflexivity|].
  intros [e1 [e2 [Hne [H1 H2]]]]. vm_compute in H1, H2.
  inversion H1; inversion H2; subst. contradiction.
Qed.

Lemma parse_auth_bearer_header_contract_witness :
  py_split_space "Bearer abc" = ["Bearer"; "abc"] /\
  parse_auth_bearer_header "Bearer abc" = Ok "abc" /\
  (parse_auth_bearer_header "Bearer a b" = Raise AuthorizationHeaderInvalidHeaderFormat ->
   AuthorizationHeaderInvalidHeaderFormat = AuthorizationHeaderInvalidHeaderFormat).
Proof.
  split; [reflexivity|]. split.
  - apply (proj1 parse_auth_bearer_header_contract "Bearer abc" "abc").
    split; [reflexivity | discriminate].
  - apply (proj1 (proj2 parse_auth_bearer_header_contract) "Bearer a b").
Defined.

(** * Further properties of the token subsystem *)

Module ExtraFacts.

Lemma parse_auth_bearer_header_error (s : string) (e : py_exc) :
  parse_auth_bearer_header s = Raise e -> e = AuthorizationHeaderInvalidHeaderFormat.
Proof.
  unfold parse_auth_bearer_header.
  destruct (py_split_space s) as [|a [|b [|c rest]]]; simpl;
    try (intros H; inversion H; reflexivity).
  destruct (String.eqb a "Bearer"); simpl; [|intros H; inversion H; reflexivity].
  destruct b; simpl; intros H; inversion H; reflexivity.
Qed.

Lemma py_eq_str_true (v : pyval) (s : string) : py_eq_str v s = true -> v = PStr s.
Proof.
  destruct v; simpl; try discriminate.
  intros H. apply String.eqb_eq in H. subst. reflexivity.
Qed.

Section WithLibrary.

Variable token_encode : jwt -> string.
Variable token_decode : string -> option jwt.
Variable sign_bytes : string -> string -> dict -> result Z.

Lemma issue_micro_service_jwt_signs (MICROSERVICES_TOKENS_DICT : list (string * string))
    (self : JWTIssuer) (details : HTTPRequestIssueServiceJWTModel) (now : Z) (tok : string) :
  issue_micro_service_jwt token_encode sign_bytes MICROSERVICES_TOKENS_DICT self details now
  = Ok tok ->
  sign_token token_encode sign_bytes (_jwt_helper self)
    [("service_name", PStr (micro_service_name details));
     ("token_type", PStr MICROSERVICE_KEY_VALUE)] now = Ok tok.
Proof.
  unfold issue_micro_service_jwt.
  destruct (_authenticate_service_token _ _ _); simpl; [exact (fun H => H) | discriminate].
Qed.

End WithLibrary.

Lemma read_token_from_env_vars_keeps (environ d : list (string * string)) :
  forall m k, ~ In k (map fst d) ->
  dict_get (snd (read_token_from_env_vars environ d m)) k = dict_get m k.
Proof.
  induction d as [|[code var] d IH]; intros m k Hk; simpl; [reflexivity|].
  simpl in Hk. destruct (env_lookup environ var) as [tok|]; [|reflexivity].
  rewrite IH by tauto. apply SigningFacts.dict_get_set_other. intros ->. tauto.
Qed.

End ExtraFacts.

(** ** [AuthHTTPRequest] *)

(** [verify_registered_user_jwt_token] returns the claims object [d]
    exactly when the header is ["Bearer <tok>"] and the reader reads [tok]
    as a ["registered_user"] token with claims [d]; a token the reader
    rejects with [FailedParsingJWTToken] or [JWTInvalidAuthException] gives
    [AuthorizationHeaderInvalidToken], and a token of any other kind
    [AuthorizationHeaderJWTTokenNotPermitted]. *)
Theorem verify_registered_user_jwt_token_contract
    (read_jwt_token : string -> result (string * token_details)) (header : string) :
  (forall d, verify_registered_user_jwt_token read_jwt_token header = Ok d <->
     exists tok, parse_auth_bearer_header header = Ok tok /\
                 read_jwt_token tok = Ok (REGISTERED_USER_KEY_VALUE, d)) /\
  (forall tok, parse_auth_bearer_header header = Ok tok ->
     (forall e, read_jwt_token tok = Raise e ->
        e = FailedParsingJWTToken \/ e = JWTInvalidAuthException ->
        verify_registered_user_jwt_token read_jwt_token header
        = Raise AuthorizationHeaderInvalidToken) /\
     (forall k d, read_jwt_token tok = Ok (k, d) -> k <> REGISTERED_USER_KEY_VALUE ->
        verify_registered_user_jwt_token read_jwt_token header
        = Raise AuthorizationHeaderJWTTokenNotPermitted)).
Proof.
  unfold verify_registered_user_jwt_token. split.
  - intros d. destruct (parse_auth_bearer_header header) as [tok|e] eqn:Hp; simpl.
    + split.
      * destruct (read_jwt_token tok) as [[k d']|e] eqn:Hr; simpl.
        -- destruct (String.eqb_spec k REGISTERED_USER_KEY_VALUE) as [->|Hk]; simpl;
             intros H; inversion H; subst; exists tok; split; [reflexivity | exact Hr].
        -- destruct e; simpl; intros H; inversion H.
      * intros [t [Ht Hr]]. inversion Ht; subst. rewrite Hr. reflexivity.
    + split; [discriminate | intros [t [Ht _]]; discriminate].
  - intros tok Hp. rewrite Hp. simpl. split.
    + intros e Hr He. rewrite Hr. destruct He as [-> | ->]; reflexivity.
    + intros k d Hr Hk. rewrite Hr. simpl.
      apply String.eqb_neq in Hk. rewrite Hk. reflexivity.
Qed.

(** Called without an expected service name, [verify_micro_service_jwt_token]
    returns the claims object [d] exactly when the header is
    ["Bearer <tok>"] and the reader reads [tok] as a ["microservice"] token
    with claims [d]; it then never returns [None].  A token of another kind
    is refused with [AuthorizationHeaderJWTTokenNotPermitted], whatever
    service name is expected. *)
Theorem verify_micro_service_jwt_token_without_name
    (read_jwt_token : string -> result (string * token_details)) (header : string) :
  (forall d, verify_micro_service_jwt_token read_jwt_token header None = Ok (Some d) <->
     exists tok, parse_auth_bearer_header header = Ok tok /\
                 read_jwt_token tok = Ok (MICROSERVICE_KEY_VALUE, d)) /\
  verify_micro_service_jwt_token read_jwt_token header None <> Ok None /\
  (forall tok k d name, parse_auth_bearer_header header = Ok tok ->
     read_jwt_token tok = Ok (k, d) -> k <> MICROSERVICE_KEY_VALUE ->
     verify_micro_service_jwt_token read_jwt_token header name
     = Raise AuthorizationHeaderJWTTokenNotPermitted).
Proof.
  unfold verify_micro_service_jwt_token. split; [|split].
  - intros d. destruct (parse_auth_bearer_header header) as [tok|e] eqn:Hp; simpl.
    + split.
      * destruct (read_jwt_token tok) as [[k d']|e] eqn:Hr; simpl.
        -- destruct (String.eqb_spec k MICROSERVICE_KEY_VALUE) as [->|Hk]; simpl;
             intros H; inversion H; subst; exists tok; split; [reflexivity | exact Hr].
        -- destruct e; simpl; intros H; inversion H.
      * intros [t [Ht Hr]]. inversion Ht; subst. rewrite Hr. reflexivity.
    + split; [discriminate | intros [t [Ht _]]; discriminate].
  - destruct (parse_auth_bearer_header header) as [tok|e]; simpl; [|discriminate].
    destruct (read_jwt_token tok) as [[k d']|e]; simpl.
    + destruct (String.eqb k MICROSERVICE_KEY_VALUE); simpl; discriminate.
    + destruct e; simpl; discriminate.
  - intros tok k d name Hp Hr Hk. rewrite Hp. simpl. rewrite Hr. simpl.
    apply String.eqb_neq in Hk. rewrite Hk. reflexivity.
Qed.

(** A header that [parse_auth_bearer_header] rejects is refused with
    [AuthorizationHeaderInvalidHeaderFormat] by both verification methods
    before any token is read: the outcome is the same for every reader. *)
Theorem verify_methods_reject_header_before_reading (header : string) :
  (forall t, parse_auth_bearer_header header <> Ok t) ->
  forall (read_jwt_token : string -> result (string * token_details)) name,
    verify_micro_service_jwt_token read_jwt_token header name
    = Raise AuthorizationHeaderInvalidHeaderFormat /\
    verify_registered_user_jwt_token read_jwt_token header
    = Raise AuthorizationHeaderInvalidHeaderFormat.
Proof.
  intros Hbad read_jwt_token name.
  unfold verify_micro_service_jwt_token, verify_registered_user_jwt_token.
  destruct (parse_auth_bearer_header header) as [t|e] eqn:Hp;
    [exfalso; exact (Hbad t eq_refl)|].
  rewrite (ExtraFacts.parse_auth_bearer_header_error _ _ Hp). split; reflexivity.
Qed.

(** Neither verification method lets the reader's
    [FailedParsingJWTToken] or [JWTInvalidAuthException] escape: for every
    reader, header and expected name, they are turned into
    [AuthorizationHeaderInvalidToken]. *)
Theorem verify_methods_never_raise_reader_exceptions
    (read_jwt_token : string -> result (string * token_details)) (header : string)
    (name : option string) :
  verify_micro_service_jwt_token read_jwt_token header name <> Raise FailedParsingJWTToken /\
  verify_micro_service_jwt_token read_jwt_token header name <> Raise JWTInvalidAuthException /\
  verify_registered_user_jwt_token read_jwt_token header <> Raise FailedParsingJWTToken /\
  verify_registered_user_jwt_token read_jwt_token header <> Raise JWTInvalidAuthException.
Proof.
  unfold verify_micro_service_jwt_token, verify_registered_user_jwt_token.
  destruct (parse_auth_bearer_header header) as [tok|e] eqn:Hp; simpl.
  - destruct (read_jwt_token tok) as [[k d]|e] eqn:Hr; simpl.
    + destruct (String.eqb k MICROSERVICE_KEY_VALUE), (String.eqb k REGISTERED_USER_KEY_VALUE);
        simpl; (repeat split; try discriminate);
        destruct name as [n|]; try discriminate;
        destruct d as [tt sn|tt u em a]; try discriminate;
        destruct (negb (py_eq_str sn n)); discriminate.
    + destruct e; simpl; repeat split; discriminate.
  - rewrite (ExtraFacts.parse_auth_bearer_header_error _ _ Hp).
    repeat split; discriminate.
Qed.

(** [read_jwt_token] (either class) returns a kind and a claims object that
    agree: the kind ["microservice"] comes with a [JWTTokenMicroService]
    whose [token_type] is that string and whose [service_name] is the
    payload's, the kind ["registered_user"] with a [JWTTokenRegisteredUser]
    built from the payload's [user_id], [email] and [is_active]; no other
    kind is ever returned. *)
Theorem read_jwt_token_kind_matches_claims
    (validate : string -> result dict) (tok : string) (k : string) (d : token_details) :
  read_jwt_token_with validate tok = Ok (k, d) ->
  exists payload, validate tok = Ok payload /\
  ((k = MICROSERVICE_KEY_VALUE /\
    exists sn, dict_get payload "service_name" = Some sn /\
               d = JWTTokenMicroService (PStr k) sn) \/
   (k = REGISTERED_USER_KEY_VALUE /\
    exists u em a, dict_get payload "user_id" = Some u /\ dict_get payload "email" = Some em /\
                   dict_get payload "is_active" = Some a /\
                   d = JWTTokenRegisteredUser (PStr k) u em a)).
Proof.
  unfold read_jwt_token_with. intros H.
  destruct (validate tok) as [payload|e]; simpl in H; [|destruct e; discriminate H].
  exists payload. split; [reflexivity|].
  unfold subscript in H.
  destruct (dict_get payload "token_type") as [tt|] eqn:Ht; simpl in H; [|discriminate H].
  destruct (py_eq_str tt MICROSERVICE_KEY_VALUE) eqn:Hm; simpl in H.
  - unfold _parse_microservice_token, key_error_to_parsing, subscript in H.
    rewrite Ht in H. simpl in H.
    destruct (dict_get payload "service_name") as [sn|]; simpl in H; [|discriminate H].
    inversion H; subst. left. split; [reflexivity|].
    exists sn. split; [reflexivity|]. rewrite (ExtraFacts.py_eq_str_true _ _ Hm). reflexivity.
  - destruct (py_eq_str tt REGISTERED_USER_KEY_VALUE) eqn:Hr; simpl in H; [|discriminate H].
    unfold _parse_registered_user_token, key_error_to_parsing, subscript in H.
    rewrite Ht in H. simpl in H.
    destruct (dict_get payload "user_id") as [u|]; simpl in H; [|discriminate H].
    destruct (dict_get payload "email") as [em|]; simpl in H; [|discriminate H].
    destruct (dict_get payload "is_active") as [a|]; simpl in H; [|discriminate H].
    inversion H; subst. right. split; [reflexivity|].
    exists u, em, a. rewrite (ExtraFacts.py_eq_str_true _ _ Hr). auto.
Qed.

(** ** [JWTIssuer] *)

(** [issue_user_jwt] checks no user detail: for every user details it
    returns a token whenever signing can succeed (the expiry stays in
    [datetime]'s range, PyJWT knows the algorithm, the private key signs).
    With the matching key pair, [JWTIssuer.read_jwt_token] reads any token
    it returns back, before its expiry, as a ["registered_user"] token
    carrying the given [user_id], [email] and [is_active]. *)
Theorem issue_user_jwt_roundtrip
    (token_encode : jwt -> string) (token_decode : string -> option jwt)
    (sign_bytes : string -> string -> dict -> result Z)
    (verify_sig : string -> string -> dict -> Z -> bool)
    (self : JWTIssuer) (now : Z) :
  (in_datetime_range
     (now + _expiration_time_in_hours (_jwt_helper self) * 3600 * US_PER_SECOND) = true ->
   is_pyjwt_algorithm (_key_algorithm (_jwt_helper self)) = true ->
   (forall p, exists sig,
      sign_bytes (_private_key (_jwt_helper self)) (_key_algorithm (_jwt_helper self)) p
      = Ok sig) ->
   forall details, exists tok, issue_user_jwt token_encode sign_bytes self details now = Ok tok) /\
  ((forall j, token_decode (token_encode j) = Some j) ->
   (forall p sig, sign_bytes (_private_key (_jwt_helper self)) (_key_algorithm (_jwt_helper self)) p
                 = Ok sig ->
                 verify_sig (_public_key (_jwt_helper self)) (_key_algorithm (_jwt_helper self)) p sig
                 = true) ->
   forall details tok dnow,
   issue_user_jwt token_encode sign_bytes self details now = Ok tok ->
   dnow < (now / US_PER_SECOND + _expiration_time_in_hours (_jwt_helper self) * 3600)
          * US_PER_SECOND ->
   issuer_read_jwt_token token_decode verify_sig self tok dnow
   = Ok (REGISTERED_USER_KEY_VALUE,
         JWTTokenRegisteredUser (PStr REGISTERED_USER_KEY_VALUE) (PInt (user_id details))
           (PStr (email details)) (PBool (is_active details)))).
Proof.
  split.
  - intros Hr Halg Hsign details.
    exact (SigningFacts.sign_token_total token_encode sign_bytes (_jwt_helper self)
             [("user_id", PInt (user_id details)); ("email", PStr (email details));
          ("is_active", PBool (is_active details));
          ("token_type", PStr REGISTERED_USER_KEY_VALUE)]
             now Hr Halg Hsign eq_refl).
  - intros Hcodec Hkey details tok dnow Hi Hd.
    change (issue_user_jwt token_encode sign_bytes self details now) with
      (sign_token token_encode sign_bytes (_jwt_helper self)
         [("user_id", PInt (user_id details)); ("email", PStr (email details));
          ("is_active", PBool (is_active details));
          ("token_type", PStr REGISTERED_USER_KEY_VALUE)] now) in Hi.
    unfold issuer_read_jwt_token, read_jwt_token_with.
    rewrite (SigningFacts.sign_then_validate token_encode token_decode sign_bytes verify_sig
               Hcodec (_jwt_helper self)
               [("user_id", PInt (user_id details)); ("email", PStr (email details));
                ("is_active", PBool (is_active details));
                ("token_type", PStr REGISTERED_USER_KEY_VALUE)]
               now dnow tok Hkey eq_refl Hi Hd).
    reflexivity.
Qed.

(** Tokens are confined to the routes of their kind: before its expiry, a
    user token from [issue_user_jwt] presented as ["Bearer <tok>"] is
    refused by [verify_micro_service_jwt_token] (whatever name is expected)
    and a microservice token from [issue_micro_service_jwt] by
    [verify_registered_user_jwt_token], both with
    [AuthorizationHeaderJWTTokenNotPermitted]. *)
Theorem issued_tokens_refused_for_other_kind
    (token_encode : jwt -> string) (token_decode : string -> option jwt)
    (sign_bytes : string -> string -> dict -> result Z)
    (verify_sig : string -> string -> dict -> Z -> bool)
    (MICROSERVICES_TOKENS_DICT : list (string * string))
    (self : JWTIssuer) (now dnow : Z) :
  (forall j, token_decode (token_encode j) = Some j) ->
  (forall p sig, sign_bytes (_private_key (_jwt_helper self)) (_key_algorithm (_jwt_helper self)) p
                 = Ok sig ->
                 verify_sig (_public_key (_jwt_helper self)) (_key_algorithm (_jwt_helper self)) p sig
                 = true) ->
  dnow < (now / US_PER_SECOND + _expiration_time_in_hours (_jwt_helper self) * 3600)
         * US_PER_SECOND ->
  (forall details tok name,
     issue_user_jwt token_encode sign_bytes self details now = Ok tok ->
     parse_auth_bearer_header ("Bearer " ++ tok) = Ok tok ->
     verify_micro_service_jwt_token
       (fun t => issuer_read_jwt_token token_decode verify_sig self t dnow)
       ("Bearer " ++ tok) name = Raise AuthorizationHeaderJWTTokenNotPermitted) /\
  (forall details tok,
     issue_micro_service_jwt token_encode sign_bytes MICROSERVICES_TOKENS_DICT self details now
     = Ok tok ->
     parse_auth_bearer_header ("Bearer " ++ tok) = Ok tok ->
     verify_registered_user_jwt_token
       (fun t => issuer_read_jwt_token token_decode verify_sig self t dnow)
       ("Bearer " ++ tok) = Raise AuthorizationHeaderJWTTokenNotPermitted).
Proof.
  intros Hcodec Hkey Hd. split.
  - intros details tok name Hi Hp.
    change (issue_user_jwt token_encode sign_bytes self details now) with
      (sign_token token_encode sign_bytes (_jwt_helper self)
         [("user_id", PInt (user_id details)); ("email", PStr (email details));
          ("is_active", PBool (is_active details));
          ("token_type", PStr REGISTERED_USER_KEY_VALUE)] now) in Hi.
    unfold verify_micro_service_jwt_token. rewrite Hp. simpl.
    unfold issuer_read_jwt_token, read_jwt_token_with.
    rewrite (SigningFacts.sign_then_validate token_encode token_decode sign_bytes verify_sig
               Hcodec (_jwt_helper self)
               [("user_id", PInt (user_id details)); ("email", PStr (email details));
                ("is_active", PBool (is_active details));
                ("token_type", PStr REGISTERED_USER_KEY_VALUE)]
               now dnow tok Hkey eq_refl Hi Hd).
    reflexivity.
  - intros details tok Hi Hp.
    apply ExtraFacts.issue_micro_service_jwt_signs in Hi.
    unfold verify_registered_user_jwt_token. rewrite Hp. simpl.
    unfold issuer_read_jwt_token, read_jwt_token_with.
    rewrite (SigningFacts.sign_then_validate token_encode token_decode sign_bytes verify_sig
               Hcodec (_jwt_helper self)
               [("service_name", PStr (micro_service_name details));
                ("token_type", PStr MICROSERVICE_KEY_VALUE)]
               now dnow tok Hkey eq_refl Hi Hd).
    reflexivity.
Qed.

(** [is_token_valid] on a token that [sign_token] made (with the matching
    key pair) from a claims payload of JSON values carrying none of the
    registered claims [iss], [sub], [aud], [nbf], [iat], [jti] answers
    [True] strictly before the token's [exp] second and [False] from that
    instant on; a token whose header names the configured algorithm, one
    PyJWT implements, but whose signature does not verify gives [False]. *)
Theorem is_token_valid_on_signed_and_forged_tokens
    (token_encode : jwt -> string) (token_decode : string -> option jwt)
    (sign_bytes : string -> string -> dict -> result Z)
    (verify_sig : string -> string -> dict -> Z -> bool)
    (self : JWTIssuer) :
  (forall j, token_decode (token_encode j) = Some j) ->
  (forall p sig, sign_bytes (_private_key (_jwt_helper self)) (_key_algorithm (_jwt_helper self)) p
                 = Ok sig ->
                 verify_sig (_public_key (_jwt_helper self)) (_key_algorithm (_jwt_helper self)) p sig
                 = true) ->
  (forall P now tok dnow,
     valid_claims_payload P = true ->
     sign_token token_encode sign_bytes (_jwt_helper self) P now = Ok tok ->
     is_token_valid token_decode verify_sig self tok dnow
     = Ok (dnow <? (now / US_PER_SECOND + _expiration_time_in_hours (_jwt_helper self) * 3600)
                   * US_PER_SECOND)) /\
  (forall tok j dnow,
     token_decode tok = Some j ->
     jwt_alg j = _key_algorithm (_jwt_helper self) ->
     is_pyjwt_algorithm (jwt_alg j) = true ->
     verify_sig (_public_key (_jwt_helper self)) (jwt_alg j) (jwt_payload j) (jwt_sig j)
     = false ->
     is_token_valid token_decode verify_sig self tok dnow = Ok false).
Proof.
  intros Hcodec Hkey. split.
  - intros P now tok dnow HP Hs.
    unfold is_token_valid, validate_token.
    rewrite (SigningFacts.decode_signed token_encode token_decode sign_bytes verify_sig
               Hcodec (_jwt_helper self) P now tok Hkey HP Hs dnow).
    unfold SigningFacts.exp_seconds.
    destruct (dnow <? _); reflexivity.
  - intros tok j dnow Hd Ha Halg Hv.
    unfold is_token_valid, validate_token, jwt_decode. rewrite Hd, Ha.
    simpl. rewrite String.eqb_refl. simpl. rewrite <- Ha, Halg. simpl. rewrite Hv.
    reflexivity.
Qed.

(** [sign_token] on a valid claims payload fails in three ways and
    otherwise returns the signed token: [OverflowError] when signing
    instant plus [expiration_time_in_hours] leaves [datetime]'s range,
    [NotImplementedError] when PyJWT does not implement the configured
    algorithm, and the signer's own exception when the private key cannot
    be loaded or used; a signature gives the token of the payload with its
    [exp] second. *)
Theorem sign_token_outcomes
    (token_encode : jwt -> string) (sign_bytes : string -> string -> dict -> result Z)
    (h : JWTHelper) (P : dict) (now : Z) :
  valid_claims_payload P = true ->
  let in_range :=
    in_datetime_range (now + _expiration_time_in_hours h * 3600 * US_PER_SECOND) in
  let P' := dict_set P "exp" (PInt (now / US_PER_SECOND + _expiration_time_in_hours h * 3600)) in
  (in_range = false -> sign_token token_encode sign_bytes h P now = Raise OverflowError) /\
  (in_range = true -> is_pyjwt_algorithm (_key_algorithm h) = false ->
   sign_token token_encode sign_bytes h P now = Raise NotImplementedError) /\
  (in_range = true -> is_pyjwt_algorithm (_key_algorithm h) = true ->
   forall e, sign_bytes (_private_key h) (_key_algorithm h) P' = Raise e ->
   sign_token token_encode sign_bytes h P now = Raise e) /\
  (in_range = true -> is_pyjwt_algorithm (_key_algorithm h) = true ->
   forall sig, sign_bytes (_private_key h) (_key_algorithm h) P' = Ok sig ->
   sign_token token_encode sign_bytes h P now
   = Ok (token_encode {| jwt_alg := _key_algorithm h; jwt_payload := P'; jwt_sig := sig |})).
Proof.
  intros HP in_range P'.
  rewrite (SigningFacts.sign_token_outcome token_encode sign_bytes h P now HP).
  unfold SigningFacts.signed_payload, SigningFacts.exp_seconds.
  subst in_range P'.
  split; [|split; [|split]].
  - intros Hr. rewrite Hr. reflexivity.
  - intros Hr Halg. rewrite Hr, Halg. reflexivity.
  - intros Hr Halg e He. rewrite Hr, Halg, He. reflexivity.
  - intros Hr Halg sig Hs. rewrite Hr, Halg, Hs. reflexivity.
Qed.

(** ** FastAPI dependencies of the AUTH SERVICE *)

(** The AUTH SERVICE's [require_microservice_jwt_token] calls
    [verify_micro_service_jwt_token] without [micro_service_name], which the
    AUTH SERVICE's signature declares without a default: every request
    fails with a [TypeError] that none of the dependency's [except]
    clauses handles, whatever the header and however tokens are read.
    With the chat backend's signature (default [None]) the same call
    resolves to the claims of a valid microservice token. *)
Theorem require_microservice_jwt_token_missing_argument
    (read_jwt_token : string -> result (string * token_details)) (Authorization : string) :
  require_microservice_jwt_token auth_service_micro_service_name_default
    read_jwt_token Authorization = Uncaught TypeError /\
  (forall tok d, parse_auth_bearer_header Authorization = Ok tok ->
     read_jwt_token tok = Ok (MICROSERVICE_KEY_VALUE, d) ->
     require_microservice_jwt_token chat_be_micro_service_name_default
       read_jwt_token Authorization = Resolved (Some d)).
Proof.
  split; [reflexivity|].
  intros tok d Hp Hr.
  unfold require_microservice_jwt_token, call_verify_micro_service_jwt_token,
    verify_micro_service_jwt_token. simpl.
  rewrite Hp. simpl. rewrite Hr. reflexivity.
Qed.

(** [require_chat_be_microservice_jwt_token] answers a malformed header
    with 401 ["Authorization header content is invalid"], a token the
    reader rejects with 401 ["JWT given is invalid"], and a registered-user
    token or a microservice token of another service with 401 ["Not
    permitted to use this API route"]; for a microservice token of
    [chat_be] it resolves to [None], the value the route then receives. *)
Theorem require_chat_be_microservice_jwt_token_outcomes
    (default : option (option string))
    (read_jwt_token : string -> result (string * token_details)) (Authorization : string) :
  ((forall t, parse_auth_bearer_header Authorization <> Ok t) ->
   require_chat_be_microservice_jwt_token default read_jwt_token Authorization
   = HTTPException HTTP_401_UNAUTHORIZED "Authorization header content is invalid") /\
  (forall tok, parse_auth_bearer_header Authorization = Ok tok ->
   (forall e, read_jwt_token tok = Raise e ->
      e = FailedParsingJWTToken \/ e = JWTInvalidAuthException ->
      require_chat_be_microservice_jwt_token default read_jwt_token Authorization
      = HTTPException HTTP_401_UNAUTHORIZED "JWT given is invalid") /\
   (forall tt u em a,
      read_jwt_token tok = Ok (REGISTERED_USER_KEY_VALUE, JWTTokenRegisteredUser tt u em a) ->
      require_chat_be_microservice_jwt_token default read_jwt_token Authorization
      = HTTPException HTTP_401_UNAUTHORIZED "Not permitted to use this API route") /\
   (forall tt name,
      read_jwt_token tok = Ok (MICROSERVICE_KEY_VALUE, JWTTokenMicroService tt (PStr name)) ->
      require_chat_be_microservice_jwt_token default read_jwt_token Authorization
      = if String.eqb name CHAT_BE then Resolved None
        else HTTPException HTTP_401_UNAUTHORIZED "Not permitted to use this API route")).
Proof.
  unfold require_chat_be_microservice_jwt_token, call_verify_micro_service_jwt_token,
    verify_micro_service_jwt_token. simpl. split.
  - intros Hbad. destruct (parse_auth_bearer_header Authorization) as [t|e] eqn:Hp;
      [exfalso; exact (Hbad t eq_refl)|].
    rewrite (ExtraFacts.parse_auth_bearer_header_error _ _ Hp). reflexivity.
  - intros tok Hp. rewrite Hp. simpl. split; [|split].
    + intros e Hr He. rewrite Hr. destruct He as [-> | ->]; reflexivity.
    + intros tt u em a Hr. rewrite Hr. reflexivity.
    + intros tt name Hr. rewrite Hr. simpl.
      rewrite (String.eqb_sym name CHAT_BE).
      destruct (String.eqb CHAT_BE name); reflexivity.
Qed.

(** [require_registered_user_jwt_token] resolves to the claims [d] exactly
    when the header is ["Bearer <tok>"] and [tok] reads as a
    ["registered_user"] token with claims [d]; a malformed header gets 401
    ["Authorization header content is invalid"], a token the reader
    rejects 401 ["JWT given is invalid"], a token of another kind 401
    ["Not permitted to use this API route"]. *)
Theorem require_registered_user_jwt_token_outcomes
    (read_jwt_token : string -> result (string * token_details)) (Authorization : string) :
  (forall d, require_registered_user_jwt_token read_jwt_token Authorization = Resolved d <->
     exists tok, parse_auth_bearer_header Authorization = Ok tok /\
                 read_jwt_token tok = Ok (REGISTERED_USER_KEY_VALUE, d)) /\
  ((forall t, parse_auth_bearer_header Authorization <> Ok t) ->
   require_registered_user_jwt_token read_jwt_token Authorization
   = HTTPException HTTP_401_UNAUTHORIZED "Authorization header content is invalid") /\
  (forall tok, parse_auth_bearer_header Authorization = Ok tok ->
   (forall e, read_jwt_token tok = Raise e ->
      e = FailedParsingJWTToken \/ e = JWTInvalidAuthException ->
      require_registered_user_jwt_token read_jwt_token Authorization
      = HTTPException HTTP_401_UNAUTHORIZED "JWT given is invalid") /\
   (forall k d, read_jwt_token tok = Ok (k, d) -> k <> REGISTERED_USER_KEY_VALUE ->
      require_registered_user_jwt_token read_jwt_token Authorization
      = HTTPException HTTP_401_UNAUTHORIZED "Not permitted to use this API route")).
Proof.
  unfold require_registered_user_jwt_token, verify_registered_user_jwt_token.
  split; [|split].
  - intros d. destruct (parse_auth_bearer_header Authorization) as [tok|e] eqn:Hp; simpl.
    + destruct (read_jwt_token tok) as [[k d']|e] eqn:Hr; simpl.
      * destruct (String.eqb_spec k REGISTERED_USER_KEY_VALUE) as [->|Hk]; simpl.
        -- split; [intros H; inversion H; subst; exists tok; split; [reflexivity | exact Hr]|].
           intros [t [Ht Hrt]]. inversion Ht; subst. rewrite Hr in Hrt.
           inversion Hrt; reflexivity.
        -- split; [intros H; inversion H|].
           intros [t [Ht Hrt]]. inversion Ht; subst. rewrite Hr in Hrt.
           inversion Hrt; subst. contradiction.
      * split; [destruct e; simpl; intros H; inversion H|].
        intros [t [Ht Hrt]]. inversion Ht; subst. rewrite Hr in Hrt. discriminate.
    + rewrite (ExtraFacts.parse_auth_bearer_header_error _ _ Hp). simpl.
      split; [intros H; inversion H | intros [t [Ht _]]; discriminate].
  - intros Hbad. destruct (parse_auth_bearer_header Authorization) as [t|e] eqn:Hp;
      [exfalso; exact (Hbad t eq_refl)|].
    rewrite (ExtraFacts.parse_auth_bearer_header_error _ _ Hp). reflexivity.
  - intros tok Hp. rewrite Hp. simpl. split.
    + intros e Hr He. rewrite Hr. destruct He as [-> | ->]; reflexivity.
    + intros k d Hr Hk. rewrite Hr. simpl.
      apply String.eqb_neq in Hk. rewrite Hk. reflexivity.
Qed.

(** ** [MicroservicesTokenMappingHelper.read_token_from_env_vars] *)

(** When every configured variable is set, [read_token_from_env_vars]
    succeeds and maps each microservice code name to the value of its
    variable; when one of them is missing it raises [KeyError]. *)
Theorem read_token_from_env_vars_mapping
    (environ microservice_tokens_env_vars_dict : list (string * string)) :
  NoDup (map fst microservice_tokens_env_vars_dict) ->
  ((forall code var, In (code, var) microservice_tokens_env_vars_dict ->
      env_lookup environ var <> None) ->
   exists mapping,
     read_token_from_env_vars environ microservice_tokens_env_vars_dict [] = (Ok tt, mapping) /\
     forall code var, In (code, var) microservice_tokens_env_vars_dict ->
       exists token, env_lookup environ var = Some token /\
                     dict_get mapping code = Some (PStr token)) /\
  ((exists code var, In (code, var) microservice_tokens_env_vars_dict /\
                     env_lookup environ var = None) ->
   fst (read_token_from_env_vars environ microservice_tokens_env_vars_dict []) = Raise KeyError).
Proof.
  intros Hnd.
  assert (Hok : forall d m, NoDup (map fst d) ->
            (forall code var, In (code, var) d -> env_lookup environ var <> None) ->
            exists mapping, read_token_from_env_vars environ d m = (Ok tt, mapping) /\
            forall code var, In (code, var) d ->
              exists token, env_lookup environ var = Some token /\
                            dict_get mapping code = Some (PStr token)).
  { induction d as [|[code var] d IH]; intros m Hn Hset; simpl.
    - exists m. split; [reflexivity | intros ? ? []].
    - inversion Hn as [|? ? Hnotin Hn']; subst.
      destruct (env_lookup environ var) as [tok|] eqn:He;
        [|exfalso; exact (Hset code var (or_introl eq_refl) He)].
      destruct (IH (dict_set m code (PStr tok)) Hn'
                  (fun c v Hin => Hset c v (or_intror Hin))) as [mapping [Hr Hm]].
      exists mapping. split; [exact Hr|].
      intros c v [Heq | Hin].
      + inversion Heq; subst. exists tok. split; [exact He|].
        pose proof (ExtraFacts.read_token_from_env_vars_keeps environ d
                      (dict_set m c (PStr tok)) c Hnotin) as K.
        rewrite Hr in K. simpl in K. rewrite K. apply SigningFacts.dict_get_set_same.
      + exact (Hm c v Hin). }
  assert (Hko : forall d m,
            (exists code var, In (code, var) d /\ env_lookup environ var = None) ->
            fst (read_token_from_env_vars environ d m) = Raise KeyError).
  { induction d as [|[code var] d IH]; intros m [c [v [Hin Hv]]]; [destruct Hin|].
    simpl. destruct Hin as [Heq | Hin].
    - inversion Heq; subst. rewrite Hv. reflexivity.
    - destruct (env_lookup environ var); [|reflexivity].
      apply IH. exists c, v. split; assumption. }
  split.
  - intros Hset. apply (Hok _ [] Hnd Hset).
  - intros Hmiss. apply (Hko _ [] Hmiss).
Qed.

(** ** [AuthServiceJWTValidator] *)

Module ValidatorFacts.
Import Validator.

Lemma set_public_key_full (v : AuthServiceJWTValidator) (body : dict) (pk alg : pyval) :
  dict_get body "public_key" = Some pk ->
  dict_get body "key_format_algorithm" = Some alg ->
  _set_public_key_from_auth_service v (Ok body)
  = (Ok tt, set_key_algorithm (set_public_key v pk) alg).
Proof.
  intros Hpk Halg. unfold _set_public_key_from_auth_service, subscript. simpl.
  rewrite Hpk, Halg. reflexivity.
Qed.

Lemma utcfromtimestamp_in_range (x : Z) :
  DATETIME_MIN_S <= x <= DATETIME_MAX_S -> utcfromtimestamp (PInt x) = Ok (x * US_PER_SECOND).
Proof.
  intros [Hlo Hhi]. unfold utcfromtimestamp. simpl.
  apply Z.leb_le in Hlo. apply Z.leb_le in Hhi. rewrite Hlo, Hhi. reflexivity.
Qed.

Section WithLibrary.

Variable token_decode : string -> option jwt.
Variable verify_sig : string -> string -> dict -> Z -> bool.

Lemma get_token_validated (v : AuthServiceJWTValidator) (body : dict) (t : string) (now : Z) :
  dict_get body "jwt_token" = Some (PStr t) ->
  _get_microservice_jwt_token_from_auth_service token_decode verify_sig v (Ok body) now
  = let v1 := set_microservice_jwt_token v (PStr t) in
    match (payload <- _validate_token token_decode verify_sig v t now ;;
           e <- subscript payload "exp" ;; utcfromtimestamp e) with
    | Raise e =>
        (if catches KeyError e then Raise FailedGettingAuthServiceResponseException
         else Raise e, v1)
    | Ok us => (Ok tt, set_expire_datetime v1 (PDatetime us))
    end.
Proof.
  intros Ht. unfold _get_microservice_jwt_token_from_auth_service, subscript at 1. simpl.
  rewrite Ht. reflexivity.
Qed.

End WithLibrary.

End ValidatorFacts.

(** [_set_public_key_from_auth_service] on an AUTH SERVICE answer: with
    both fields it stores the key and the algorithm and leaves the
    microservice token and its expiry alone; without [key_format_algorithm]
    it raises [FailedGettingAuthServiceResponseException] after having
    already replaced the public key (the algorithm stays the old one);
    without [public_key] it raises the same exception and changes
    nothing. *)
Theorem set_public_key_from_auth_service_updates
    (v : Validator.AuthServiceJWTValidator) (body : dict) :
  (forall pk alg, dict_get body "public_key" = Some pk ->
     dict_get body "key_format_algorithm" = Some alg ->
     exists v', Validator._set_public_key_from_auth_service v (Ok body) = (Ok tt, v') /\
       Validator._public_key v' = pk /\ Validator._key_algorithm v' = alg /\
       Validator._microservice_jwt_token v' = Validator._microservice_jwt_token v /\
       Validator._microservice_jwt_token_expire_datetime v'
       = Validator._microservice_jwt_token_expire_datetime v) /\
  (forall pk, dict_get body "public_key" = Some pk ->
     dict_get body "key_format_algorithm" = None ->
     exists v', Validator._set_public_key_from_auth_service v (Ok body)
                = (Raise FailedGettingAuthServiceResponseException, v') /\
       Validator._public_key v' = pk /\
       Validator._key_algorithm v' = Validator._key_algorithm v) /\
  (dict_get body "public_key" = None ->
   Validator._set_public_key_from_auth_service v (Ok body)
   = (Raise FailedGettingAuthServiceResponseException, v)).
Proof.
  split; [|split].
  - intros pk alg Hpk Halg. rewrite (ValidatorFacts.set_public_key_full v body pk alg Hpk Halg).
    eexists; split; [reflexivity|]. repeat split.
  - intros pk Hpk Halg. unfold Validator._set_public_key_from_auth_service, subscript. simpl.
    rewrite Hpk, Halg. eexists; split; [reflexivity|]. split; reflexivity.
  - intros Hpk. unfold Validator._set_public_key_from_auth_service, subscript. simpl.
    rewrite Hpk. reflexivity.
Qed.

(** [_get_microservice_jwt_token_from_auth_service] on an AUTH SERVICE
    answer: without [jwt_token] it raises
    [FailedGettingAuthServiceResponseException] and changes nothing.
    Otherwise it stores the token first; if the token then fails
    validation (bad format or signature, expired, other algorithm) the
    method raises [JWTTokenInvalidException], not
    [FailedGettingAuthServiceResponseException], keeping the new token with
    the old expiry; a validated payload without [exp] gives
    [FailedGettingAuthServiceResponseException], again with the new token
    and the old expiry; a validated payload whose [exp] is an [int]
    second of years 1 to 9999 sets the expiry to that second, while any
    other [int] makes [datetime.utcfromtimestamp] raise [ValueError],
    [OverflowError] or [OSError], again with the new token and the old
    expiry. *)
Theorem get_microservice_jwt_token_from_auth_service_outcomes
    (token_decode : string -> option jwt)
    (verify_sig : string -> string -> dict -> Z -> bool)
    (v : Validator.AuthServiceJWTValidator) (body : dict) (now : Z) :
  (dict_get body "jwt_token" = None ->
   Validator._get_microservice_jwt_token_from_auth_service token_decode verify_sig v (Ok body) now
   = (Raise FailedGettingAuthServiceResponseException, v)) /\
  (forall t, dict_get body "jwt_token" = Some (PStr t) ->
   (forall e, Validator.decode_with_state token_decode verify_sig v t now = Raise e ->
      e = DecodeError \/ e = InvalidSignatureError \/ e = ExpiredSignatureError \/
      e = InvalidAlgorithmError ->
      exists v', Validator._get_microservice_jwt_token_from_auth_service token_decode verify_sig
                   v (Ok body) now = (Raise JWTTokenInvalidException, v') /\
        Validator._microservice_jwt_token v' = PStr t /\
        Validator._microservice_jwt_token_expire_datetime v'
        = Validator._microservice_jwt_token_expire_datetime v) /\
   (forall payload, Validator.decode_with_state token_decode verify_sig v t now = Ok payload ->
      (dict_get payload "exp" = None ->
       exists v', Validator._get_microservice_jwt_token_from_auth_service token_decode verify_sig
                    v (Ok body) now = (Raise FailedGettingAuthServiceResponseException, v') /\
         Validator._microservice_jwt_token v' = PStr t /\
         Validator._microservice_jwt_token_expire_datetime v'
         = Validator._microservice_jwt_token_expire_datetime v) /\
      (forall x, dict_get payload "exp" = Some (PInt x) ->
       Validator.DATETIME_MIN_S <= x <= Validator.DATETIME_MAX_S ->
       exists v', Validator._get_microservice_jwt_token_from_auth_service token_decode verify_sig
                    v (Ok body) now = (Ok tt, v') /\
         Validator._microservice_jwt_token v' = PStr t /\
         Validator._microservice_jwt_token_expire_datetime v' = PDatetime (x * US_PER_SECOND) /\
         Validator._public_key v' = Validator._public_key v /\
         Validator._key_algorithm v' = Validator._key_algorithm v) /\
      (forall x, dict_get payload "exp" = Some (PInt x) ->
       ~ (Validator.DATETIME_MIN_S <= x <= Validator.DATETIME_MAX_S) ->
       exists e v', Validator._get_microservice_jwt_token_from_auth_service token_decode verify_sig
                      v (Ok body) now = (Raise e, v') /\
         (e = ValueError \/ e = OverflowError \/ e = OSError) /\
         Validator._microservice_jwt_token v' = PStr t /\
         Validator._microservice_jwt_token_expire_datetime v'
         = Validator._microservice_jwt_token_expire_datetime v))).
Proof.
  split.
  - intros Hn. unfold Validator._get_microservice_jwt_token_from_auth_service, subscript. simpl.
    rewrite Hn. reflexivity.
  - intros t Ht. rewrite (ValidatorFacts.get_token_validated token_decode verify_sig v body t now Ht).
    unfold Validator._validate_token. split.
    + intros e Hd He. rewrite Hd.
      destruct He as [-> | [-> | [-> | ->]]]; simpl; eexists; repeat split.
    + intros payload Hd. rewrite Hd. simpl. unfold subscript. split.
      * intros Hn. rewrite Hn. simpl. eexists; repeat split.
      * split.
        -- intros x Hx [Hlo Hhi]. rewrite Hx. simpl. unfold Validator.utcfromtimestamp. simpl.
           apply Z.leb_le in Hlo. apply Z.leb_le in Hhi. rewrite Hlo, Hhi. simpl.
           eexists; repeat split.
        -- intros x Hx Hout. rewrite Hx. simpl. unfold Validator.utcfromtimestamp. simpl.
           destruct ((Validator.DATETIME_MIN_S <=? x) && (x <=? Validator.DATETIME_MAX_S)) eqn:Hin.
           ++ exfalso. apply Hout. apply andb_prop in Hin as [H1 H2].
              apply Z.leb_le in H1. apply Z.leb_le in H2. lia.
           ++ destruct (negb _); [|destruct (negb _)]; simpl;
                (do 2 eexists; split; [reflexivity|]; split; [tauto|]; split; reflexivity).
Qed.

(** If the AUTH SERVICE answers the first attempt with a public key and a
    token that then fails validation, [initial_jwt_validator] stops on that
    first attempt with [JWTTokenInvalidException]: the error is not one the
    retry loop handles, so there is no second attempt and no sleep. *)
Theorem initial_jwt_validator_stops_on_invalid_issued_token
    (token_decode : string -> option jwt)
    (verify_sig : string -> string -> dict -> Z -> bool)
    (public_key_response token_response : nat -> result dict) (fuel : nat)
    (v : Validator.AuthServiceJWTValidator) (now : Z)
    (pk_body tok_body : dict) (pk alg : pyval) (t : string) (e : py_exc) :
  public_key_response 0%nat = Ok pk_body ->
  dict_get pk_body "public_key" = Some pk ->
  dict_get pk_body "key_format_algorithm" = Some alg ->
  token_response 0%nat = Ok tok_body ->
  dict_get tok_body "jwt_token" = Some (PStr t) ->
  Validator.decode_with_state token_decode verify_sig
    (Validator.set_key_algorithm (Validator.set_public_key v pk) alg) t now = Raise e ->
  e = DecodeError \/ e = InvalidSignatureError \/ e = ExpiredSignatureError \/
  e = InvalidAlgorithmError ->
  exists v', Validator.initial_jwt_validator token_decode verify_sig public_key_response
               token_response (S fuel) v now
             = Validator.InitRaised JWTTokenInvalidException v' /\
    Validator._public_key v' = pk /\ Validator._key_algorithm v' = alg /\
    Validator._microservice_jwt_token v' = PStr t.
Proof.
  intros Hpkr Hpk Halg Htr Ht Hd He.
  unfold Validator.initial_jwt_validator. cbn [Validator.initial_loop].
  change (0 <? 3) with true. cbv iota.
  rewrite Hpkr, (ValidatorFacts.set_public_key_full v pk_body pk alg Hpk Halg), Htr.
  rewrite (ValidatorFacts.get_token_validated token_decode verify_sig _ tok_body t now Ht).
  unfold Validator._validate_token. rewrite Hd.
  destruct He as [-> | [-> | [-> | ->]]]; simpl; eexists; repeat split.
Qed.

(** Bootstrapping against a working AUTH SERVICE: when the first public-key
    answer carries the issuer's public key and algorithm and the first
    token answer carries a token the issuer made with
    [issue_micro_service_jwt] (at [t0], still valid at [now]),
    [initial_jwt_validator] returns after one attempt with the issuer's key
    and algorithm, that token, and its expiry second.  The validator then
    reads its own token as a ["microservice"] token of the requested name,
    and [get_microservice_jwt] hands the token out without any exchange
    until a minute after that expiry. *)
Theorem initial_jwt_validator_against_auth_service
    (token_encode : jwt -> string) (token_decode : string -> option jwt)
    (sign_bytes : string -> string -> dict -> result Z)
    (verify_sig : string -> string -> dict -> Z -> bool)
    (MICROSERVICES_TOKENS_DICT : list (string * string)) (issuer : JWTIssuer)
    (details : HTTPRequestIssueServiceJWTModel)
    (public_key_response token_response : nat -> result dict) (fuel : nat)
    (v : Validator.AuthServiceJWTValidator) (t0 now : Z) (pk_body tok_body : dict)
    (tok : string) :
  (forall j, token_decode (token_encode j) = Some j) ->
  (forall p sig,
     sign_bytes (_private_key (_jwt_helper issuer)) (_key_algorithm (_jwt_helper issuer)) p
     = Ok sig ->
     verify_sig (_public_key (_jwt_helper issuer)) (_key_algorithm (_jwt_helper issuer)) p sig
     = true) ->
  issue_micro_service_jwt token_encode sign_bytes MICROSERVICES_TOKENS_DICT issuer details t0
  = Ok tok ->
  public_key_response 0%nat = Ok pk_body ->
  dict_get pk_body "public_key" = Some (PStr (_public_key (_jwt_helper issuer))) ->
  dict_get pk_body "key_format_algorithm" = Some (PStr (_key_algorithm (_jwt_helper issuer))) ->
  token_response 0%nat = Ok tok_body ->
  dict_get tok_body "jwt_token" = Some (PStr tok) ->
  now < (t0 / US_PER_SECOND + _expiration_time_in_hours (_jwt_helper issuer) * 3600)
        * US_PER_SECOND ->
  exists v',
    Validator.initial_jwt_validator token_decode verify_sig public_key_response token_response
      (S fuel) v now = Validator.InitReturned v' /\
    Validator._public_key v' = PStr (_public_key (_jwt_helper issuer)) /\
    Validator._key_algorithm v' = PStr (_key_algorithm (_jwt_helper issuer)) /\
    Validator._microservice_jwt_token v' = PStr tok /\
    Validator._microservice_jwt_token_expire_datetime v'
    = PDatetime ((t0 / US_PER_SECOND + _expiration_time_in_hours (_jwt_helper issuer) * 3600)
                 * US_PER_SECOND) /\
    Validator.read_jwt_token token_decode verify_sig v' tok now
    = Ok (MICROSERVICE_KEY_VALUE,
          JWTTokenMicroService (PStr MICROSERVICE_KEY_VALUE) (PStr (micro_service_name details))) /\
    (forall now' response,
       now' - Validator.ONE_MINUTE
       <= (t0 / US_PER_SECOND + _expiration_time_in_hours (_jwt_helper issuer) * 3600)
          * US_PER_SECOND ->
       Validator.get_microservice_jwt token_decode verify_sig v' now' response
       = (Ok (PStr tok), 0%nat, v')).
Proof.
  intros Hcodec Hkey Hi Hpkr Hpk Halg Htr Ht Hnow.
  apply ExtraFacts.issue_micro_service_jwt_signs in Hi.
  pose proof (SigningFacts.decode_signed token_encode token_decode sign_bytes verify_sig Hcodec
                (_jwt_helper issuer)
                [("service_name", PStr (micro_service_name details));
                 ("token_type", PStr MICROSERVICE_KEY_VALUE)] t0 tok Hkey eq_refl Hi now) as Hd.
  destruct (SigningFacts.sign_token_ok token_encode sign_bytes (_jwt_helper issuer)
              [("service_name", PStr (micro_service_name details));
               ("token_type", PStr MICROSERVICE_KEY_VALUE)] t0 tok eq_refl Hi)
    as [Hrange _].
  apply SigningFacts.exp_seconds_in_range in Hrange.
  unfold SigningFacts.signed_payload, SigningFacts.exp_seconds in *.
  destruct (Z.ltb_spec now ((t0 / US_PER_SECOND + _expiration_time_in_hours (_jwt_helper issuer)
                             * 3600) * US_PER_SECOND)) as [_|Hge]; [|lia].
  set (E := t0 / US_PER_SECOND + _expiration_time_in_hours (_jwt_helper issuer) * 3600) in *.
  unfold Validator.initial_jwt_validator. cbn [Validator.initial_loop].
  change (0 <? 3) with true. cbv iota.
  rewrite Hpkr, (ValidatorFacts.set_public_key_full v pk_body _ _ Hpk Halg), Htr.
  rewrite (ValidatorFacts.get_token_validated token_decode verify_sig _ tok_body tok now Ht).
  unfold Validator._validate_token, Validator.decode_with_state. simpl.
  rewrite Hd. simpl. rewrite (ValidatorFacts.utcfromtimestamp_in_range _ Hrange).
  eexists. split; [reflexivity|].
  split; [reflexivity|]. split; [reflexivity|]. split; [reflexivity|].
  split; [reflexivity|]. split.
  - unfold Validator.read_jwt_token, read_jwt_token_with, Validator._validate_token,
      Validator.decode_with_state. simpl. rewrite Hd. reflexivity.
  - intros now' response Hle. unfold Validator.get_microservice_jwt. simpl.
    destruct (Z.ltb_spec (E * US_PER_SECOND) (now' - Validator.ONE_MINUTE)); [lia|].
    reflexivity.
Qed.

(** A validator whose key algorithm is not a string (the state right after
    construction, or after a start-up that did not get the public key)
    rejects every token: [read_jwt_token] raises [JWTInvalidAuthException]
    whatever the token and the instant. *)
Theorem validator_without_algorithm_rejects_every_token
    (token_decode : string -> option jwt)
    (verify_sig : string -> string -> dict -> Z -> bool)
    (v : Validator.AuthServiceJWTValidator) :
  (forall s, Validator._key_algorithm v <> PStr s) ->
  forall tok now,
    Validator.read_jwt_token token_decode verify_sig v tok now = Raise JWTInvalidAuthException.
Proof.
  intros Halg tok now.
  unfold Validator.read_jwt_token, read_jwt_token_with, Validator._validate_token,
    Validator.decode_with_state.
  destruct (Validator._key_algorithm v) as [s| | | |];
    [exfalso; exact (Halg s eq_refl)| | | |];
    destruct (token_decode tok); reflexivity.
Qed.

(** [_query_auth_service_api] gives the JSON answer exactly for a status
    from 200 to 299 with a JSON body; a failed request, another status or
    a body that is not JSON all raise
    [FailedGettingAuthServiceResponseException], the only exception it
    raises.  The request goes to the address followed by the route and
    carries an [Authorization] header, ["Bearer <jwt>"], exactly when a
    JWT is given. *)
Theorem query_auth_service_api_contract
    (send : Validator.http_request -> Validator.http_reply)
    (auth_service_address api_route method : string)
    (authorization_jwt : option string) (request_data : option dict) :
  let q := Validator._query_auth_service_api send auth_service_address api_route method
             authorization_jwt request_data in
  (forall d, snd q = Ok d <->
     exists status_code, send (fst q) = Validator.Reply status_code (Some d) /\
                         200 <= status_code <= 299) /\
  (forall e, snd q = Raise e -> e = FailedGettingAuthServiceResponseException) /\
  Validator.req_url (fst q) = auth_service_address ++ api_route /\
  (forall x, In ("Authorization", x) (Validator.req_headers (fst q)) <->
             exists jwt, authorization_jwt = Some jwt /\ x = "Bearer " ++ jwt).
Proof.
  intros q. unfold q, Validator._query_auth_service_api. cbn [fst snd].
  set (req := {| Validator.req_method := method;
                 Validator.req_url := auth_service_address ++ api_route;
                 Validator.req_headers := _; Validator.req_json := _ |}).
  split; [|split; [|split]].
  - intros d. destruct (send req) as [|status_code json].
    + split; [discriminate | intros [s [H _]]; discriminate].
    + destruct (Z.leb_spec 200 status_code) as [Hlo|Hlo], (Z.leb_spec status_code 299) as [Hhi|Hhi];
        simpl.
      * destruct json as [d'|].
        -- split; [intros Hr; inversion Hr; subst; exists status_code; split; [reflexivity | lia]|].
           intros [s [Hr _]]. inversion Hr; reflexivity.
        -- split; [discriminate | intros [s [Hr _]]; discriminate].
      * split; [discriminate | intros [s [Hr Hs]]; inversion Hr; subst; lia].
      * split; [discriminate | intros [s [Hr Hs]]; inversion Hr; subst; lia].
      * split; [discriminate | intros [s [Hr Hs]]; inversion Hr; subst; lia].
  - intros e. destruct (send req) as [|status_code json]; [intros H; inversion H; reflexivity|].
    destruct ((200 <=? status_code) && (status_code <=? 299)); simpl;
      [destruct json; intros H; inversion H; reflexivity | intros H; inversion H; reflexivity].
  - reflexivity.
  - intros x. simpl. destruct authorization_jwt as [jwt|]; simpl.
    + split.
      * intros [H | [H | []]]; [discriminate | inversion H; subst; exists jwt; split; reflexivity].
      * intros [j [Hj ->]]. inversion Hj; subst. right; left; reflexivity.
    + split; [intros [H | []]; discriminate | intros [j [Hj _]]; discriminate].
Qed.

(** ** Runs of the further properties on the toy key pair *)

Module ExtraRuns.

Definition issued_user_manager_token : string :=
  match issue_micro_service_jwt ToyJWT.token_encode ToyJWT.sign_bytes registry toy_issuer
          {| micro_service_name := "user_manager";
             micro_service_initial_token := "um-secret" |} 0 with
  | Ok t => t
  | Raise _ => EmptyString
  end.

Definition auth_service_public_key : nat -> result dict :=
  fun _ => Ok [("public_key", PStr "pub"); ("key_format_algorithm", PStr "RS256")].

Definition auth_service_token (t : string) : nat -> result dict :=
  fun _ => Ok [("jwt_token", PStr t)].

Definition environ : list (string * string) :=
  [("HOME", "/root"); ("USER_MANAGER_TOKEN", "um-secret"); ("CHAT_BE_TOKEN", "chat-secret")].

Definition microservice_tokens_env_vars : list (string * string) :=
  [("user_manager", "USER_MANAGER_TOKEN"); ("chat_be", "CHAT_BE_TOKEN")].

End ExtraRuns.

Import ExtraRuns.

Lemma verify_methods_reject_header_before_reading_witness :
  (forall t, parse_auth_bearer_header "Token abc" <> Ok t) /\
  (verify_micro_service_jwt_token (fun _ => Raise KeyError) "Token abc" None
   = Raise AuthorizationHeaderInvalidHeaderFormat /\
   verify_registered_user_jwt_token (fun _ => Raise KeyError) "Token abc"
   = Raise AuthorizationHeaderInvalidHeaderFormat).
Proof.
  assert (Hbad : forall t, parse_auth_bearer_header "Token abc" <> Ok t)
    by (intros t; vm_compute; discriminate).
  split; [exact Hbad|].
  exact (verify_methods_reject_header_before_reading "Token abc" Hbad
           (fun _ => Raise KeyError) None).
Defined.

Lemma read_jwt_token_kind_matches_claims_witness :
  read_jwt_token_with
    (fun t => validate_token ToyJWT.token_decode ToyJWT.verify_sig toy_helper t 0) chat_be_token
  = Ok (MICROSERVICE_KEY_VALUE,
        JWTTokenMicroService (PStr MICROSERVICE_KEY_VALUE) (PStr "chat_be")) /\
  exists payload,
    validate_token ToyJWT.token_decode ToyJWT.verify_sig toy_helper chat_be_token 0 = Ok payload /\
    ((MICROSERVICE_KEY_VALUE = MICROSERVICE_KEY_VALUE /\
      exists sn, dict_get payload "service_name" = Some sn /\
                 JWTTokenMicroService (PStr MICROSERVICE_KEY_VALUE) (PStr "chat_be")
                 = JWTTokenMicroService (PStr MICROSERVICE_KEY_VALUE) sn) \/
     (MICROSERVICE_KEY_VALUE = REGISTERED_USER_KEY_VALUE /\
      exists u em a, dict_get payload "user_id" = Some u /\ dict_get payload "email" = Some em /\
                     dict_get payload "is_active" = Some a /\
                     JWTTokenMicroService (PStr MICROSERVICE_KEY_VALUE) (PStr "chat_be")
                     = JWTTokenRegisteredUser (PStr MICROSERVICE_KEY_VALUE) u em a)).
Proof.
  split; [vm_compute; reflexivity|].
  apply (read_jwt_token_kind_matches_claims
           (fun t => validate_token ToyJWT.token_decode ToyJWT.verify_sig toy_helper t 0)
           chat_be_token).
  vm_compute. reflexivity.
Defined.

Module ExtraRuns2.

Definition user_details : HTTPRequestIssueUserJWTModel :=
  {| user_id := 7; email := "dana@example.com"; is_active := true |}.

Definition user_manager_details : HTTPRequestIssueServiceJWTModel :=
  {| micro_service_name := "user_manager"; micro_service_initial_token := "um-secret" |}.

Definition issued_user_token : string :=
  match issue_user_jwt ToyJWT.token_encode ToyJWT.sign_bytes toy_issuer user_details 0 with
  | Ok t => t
  | Raise _ => EmptyString
  end.

(** A token of the right algorithm whose signature does not verify. *)
Definition forged_jwt : jwt :=
  {| jwt_alg := "RS256";
     jwt_payload := [("service_name", PStr "chat_be");
                     ("token_type", PStr "microservice"); ("exp", PInt 3600)];
     jwt_sig := 0 |}.

Definition forged_token : string := ToyJWT.token_encode forged_jwt.

(** The same variables with the [chat_be] one misspelt. *)
Definition misspelt_env_vars : list (string * string) :=
  [("user_manager", "USER_MANAGER_TOKEN"); ("chat_be", "CHATBE_TOKEN")].

End ExtraRuns2.

Import ExtraRuns2.

Lemma issued_tokens_refused_for_other_kind_witness :
  0 < (0 / US_PER_SECOND + _expiration_time_in_hours (_jwt_helper toy_issuer) * 3600)
      * US_PER_SECOND /\
  verify_micro_service_jwt_token
    (fun t => issuer_read_jwt_token ToyJWT.token_decode ToyJWT.verify_sig toy_issuer t 0)
    ("Bearer " ++ issued_user_token) (Some "chat_be")
  = Raise AuthorizationHeaderJWTTokenNotPermitted /\
  verify_registered_user_jwt_token
    (fun t => issuer_read_jwt_token ToyJWT.token_decode ToyJWT.verify_sig toy_issuer t 0)
    ("Bearer " ++ issued_user_manager_token)
  = Raise AuthorizationHeaderJWTTokenNotPermitted.
Proof.
  assert (Hd : 0 < (0 / US_PER_SECOND + _expiration_time_in_hours (_jwt_helper toy_issuer) * 3600)
                   * US_PER_SECOND) by (vm_compute; reflexivity).
  destruct (issued_tokens_refused_for_other_kind ToyJWT.token_encode ToyJWT.token_decode
              ToyJWT.sign_bytes ToyJWT.verify_sig registry toy_issuer 0 0
              ToyJWTFacts.token_decode_encode (ToyJWTFacts.toy_key_pair _) Hd) as [H1 H2].
  split; [exact Hd | split].
  - apply (H1 user_details issued_user_token (Some "chat_be")); vm_compute; reflexivity.
  - apply (H2 user_manager_details issued_user_manager_token); vm_compute; reflexivity.
Defined.

Lemma is_token_valid_on_signed_and_forged_tokens_witness :
  is_token_valid ToyJWT.token_decode ToyJWT.verify_sig toy_issuer issued_user_manager_token
    (10 * US_PER_SECOND) = Ok true /\
  is_token_valid ToyJWT.token_decode ToyJWT.verify_sig toy_issuer issued_user_manager_token
    (7200 * US_PER_SECOND) = Ok false /\
  is_token_valid ToyJWT.token_decode ToyJWT.verify_sig toy_issuer forged_token 0 = Ok false.
Proof.
  destruct (is_token_valid_on_signed_and_forged_tokens ToyJWT.token_encode ToyJWT.token_decode
              ToyJWT.sign_bytes ToyJWT.verify_sig toy_issuer
              ToyJWTFacts.token_decode_encode (ToyJWTFacts.toy_key_pair _)) as [H1 H2].
  split; [|split].
  - rewrite (H1 [("service_name", PStr "user_manager"); ("token_type", PStr "microservice")]
               0 issued_user_manager_token (10 * US_PER_SECOND)
               ltac:(vm_compute; reflexivity) ltac:(vm_compute; reflexivity)).
    vm_compute. reflexivity.
  - rewrite (H1 [("service_name", PStr "user_manager"); ("token_type", PStr "microservice")]
               0 issued_user_manager_token (7200 * US_PER_SECOND)
               ltac:(vm_compute; reflexivity) ltac:(vm_compute; reflexivity)).
    vm_compute. reflexivity.
  - apply (H2 forged_token forged_jwt 0); vm_compute; reflexivity.
Defined.

Lemma sign_token_outcomes_witness :
  valid_claims_payload [("token_type", PStr "microservice"); ("service_name", PStr "chat_be")]
  = true /\
  sign_token ToyJWT.token_encode ToyJWT.sign_bytes
    {| _private_key := "priv"; _public_key := "pub";
       _expiration_time_in_hours := 10 ^ 9; _key_algorithm := "RS256" |}
    [("token_type", PStr "microservice"); ("service_name", PStr "chat_be")] 0
  = Raise OverflowError /\
  sign_token ToyJWT.token_encode ToyJWT.sign_bytes
    {| _private_key := "priv"; _public_key := "pub";
       _expiration_time_in_hours := 1; _key_algorithm := "RS1024" |}
    [("token_type", PStr "microservice"); ("service_name", PStr "chat_be")] 0
  = Raise NotImplementedError /\
  sign_token ToyJWT.token_encode ToyJWT.sign_bytes
    {| _private_key := "pub"; _public_key := "pub";
       _expiration_time_in_hours := 1; _key_algorithm := "RS256" |}
    [("token_type", PStr "microservice"); ("service_name", PStr "chat_be")] 0
  = Raise InvalidKeyError.
Proof.
  assert (HP : valid_claims_payload
                 [("token_type", PStr "microservice"); ("service_name", PStr "chat_be")] = true)
    by reflexivity.
  split; [exact HP|]. split; [|split].
  - apply (proj1 (sign_token_outcomes ToyJWT.token_encode ToyJWT.sign_bytes
                    {| _private_key := "priv"; _public_key := "pub";
                       _expiration_time_in_hours := 10 ^ 9; _key_algorithm := "RS256" |}
                    _ 0 HP)).
    vm_compute. reflexivity.
  - apply (proj1 (proj2 (sign_token_outcomes ToyJWT.token_encode ToyJWT.sign_bytes
                           {| _private_key := "priv"; _public_key := "pub";
                              _expiration_time_in_hours := 1; _key_algorithm := "RS1024" |}
                           _ 0 HP))); vm_compute; reflexivity.
  - apply (proj1 (proj2 (proj2 (sign_token_outcomes ToyJWT.token_encode ToyJWT.sign_bytes
                                  {| _private_key := "pub"; _public_key := "pub";
                                     _expiration_time_in_hours := 1; _key_algorithm := "RS256" |}
                                  _ 0 HP)))); vm_compute; reflexivity.
Defined.

Lemma read_token_from_env_vars_mapping_witness :
  NoDup (map fst microservice_tokens_env_vars) /\
  (exists mapping,
     read_token_from_env_vars environ microservice_tokens_env_vars [] = (Ok tt, mapping) /\
     dict_get mapping "chat_be" = Some (PStr "chat-secret")) /\
  NoDup (map fst misspelt_env_vars) /\
  fst (read_token_from_env_vars environ misspelt_env_vars []) = Raise KeyError.
Proof.
  assert (Hnd : NoDup (map fst microservice_tokens_env_vars)).
  { simpl. constructor; [simpl; intros [H | []]; discriminate|].
    constructor; [intros []|constructor]. }
  assert (Hnd' : NoDup (map fst misspelt_env_vars)) by exact Hnd.
  split; [exact Hnd|]. split; [|split; [exact Hnd'|]].
  - destruct (proj1 (read_token_from_env_vars_mapping environ microservice_tokens_env_vars Hnd))
      as [mapping [Hm Hget]].
    + intros code var Hin. simpl in Hin.
      destruct Hin as [Hin | [Hin | []]]; inversion Hin; subst; vm_compute; discriminate.
    + exists mapping. split; [exact Hm|].
      destruct (Hget "chat_be" "CHAT_BE_TOKEN") as [token [Hl Hg]];
        [simpl; right; left; reflexivity|].
      vm_compute in Hl. inversion Hl; subst token. exact Hg.
  - apply (proj2 (read_token_from_env_vars_mapping environ misspelt_env_vars Hnd')).
    exists "chat_be", "CHATBE_TOKEN". split; [simpl; right; left; reflexivity|].
    vm_compute. reflexivity.
Defined.

Lemma initial_jwt_validator_stops_on_invalid_issued_token_witness :
  exists v',
    Validator.initial_jwt_validator ToyJWT.token_decode ToyJWT.verify_sig auth_service_public_key
      (auth_service_token expired_token) 3 (Validator.init "chat-secret" "chat_be")
      (20 * US_PER_SECOND)
    = Validator.InitRaised JWTTokenInvalidException v' /\
    Validator._public_key v' = PStr "pub" /\ Validator._key_algorithm v' = PStr "RS256" /\
    Validator._microservice_jwt_token v' = PStr expired_token.
Proof.
  apply (initial_jwt_validator_stops_on_invalid_issued_token ToyJWT.token_decode
           ToyJWT.verify_sig auth_service_public_key (auth_service_token expired_token) 2
           (Validator.init "chat-secret" "chat_be") (20 * US_PER_SECOND)
           [("public_key", PStr "pub"); ("key_format_algorithm", PStr "RS256")]
           [("jwt_token", PStr expired_token)] (PStr "pub") (PStr "RS256") expired_token
           ExpiredSignatureError).
  - reflexivity.
  - reflexivity.
  - reflexivity.
  - reflexivity.
  - reflexivity.
  - vm_compute. reflexivity.
  - right. right. left. reflexivity.
Defined.

Lemma initial_jwt_validator_against_auth_service_witness :
  exists v',
    Validator.initial_jwt_validator ToyJWT.token_decode ToyJWT.verify_sig auth_service_public_key
      (auth_service_token issued_user_manager_token) 3
      (Validator.init "um-secret" "user_manager") (60 * US_PER_SECOND)
    = Validator.InitReturned v' /\
    Validator.read_jwt_token ToyJWT.token_decode ToyJWT.verify_sig v' issued_user_manager_token
      (60 * US_PER_SECOND)
    = Ok (MICROSERVICE_KEY_VALUE,
          JWTTokenMicroService (PStr MICROSERVICE_KEY_VALUE) (PStr "user_manager")).
Proof.
  destruct (initial_jwt_validator_against_auth_service ToyJWT.token_encode ToyJWT.token_decode
              ToyJWT.sign_bytes ToyJWT.verify_sig registry toy_issuer user_manager_details
              auth_service_public_key (auth_service_token issued_user_manager_token) 2
              (Validator.init "um-secret" "user_manager") 0 (60 * US_PER_SECOND)
              [("public_key", PStr "pub"); ("key_format_algorithm", PStr "RS256")]
              [("jwt_token", PStr issued_user_manager_token)] issued_user_manager_token
              ToyJWTFacts.token_decode_encode (ToyJWTFacts.toy_key_pair _)
              ltac:(vm_compute; reflexivity) eq_refl eq_refl eq_refl eq_refl eq_refl
              ltac:(vm_compute; reflexivity))
    as [v' [Hinit [_ [_ [_ [_ [Hread _]]]]]]].
  exists v'. split; [exact Hinit | exact Hread].
Defined.

Lemma validator_without_algorithm_rejects_every_token_witness :
  (forall s, Validator._key_algorithm (Validator.init "chat-secret" "chat_be") <> PStr s) /\
  Validator.read_jwt_token ToyJWT.token_decode ToyJWT.verify_sig
    (Validator.init "chat-secret" "chat_be") chat_be_token 0
  = Raise JWTInvalidAuthException.
Proof.
  assert (Halg : forall s, Validator._key_algorithm (Validator.init "chat-secret" "chat_be")
                           <> PStr s) by (intros s; discriminate).
  split; [exact Halg|].
  exact (validator_without_algorithm_rejects_every_token ToyJWT.token_decode ToyJWT.verify_sig
           (Validator.init "chat-secret" "chat_be") Halg chat_be_token 0).
Defined.
